(** * Build-queue controller of the chronodivide bot

    A shallow embedding of
      - src/bot/logic/building/queueController.ts   (QueueController)
      - src/bot/logic/building/antiGroundStaticDefence.ts
    together with the properties of the per-queue selector, the cross-queue
    totals and the per-queue state machine.

    Conventions of the embedding.
      - A JavaScript [number] is an exact rational ([Q]); [==] on [Q] is the
        setoid equality [Qeq].  Rounding, NaN and the infinities of IEEE
        doubles are outside the model.
      - [undefined]/[null] results are [option] values.
      - Objects of the rules database ([TechnoRules]) carry an explicit
        identity [tr_ref]; the source's [==]/[!=] on such objects compares
        identities.
      - Calls on [ActionsApi] and on the logger are recorded, in order, as a
        list of [Event]s. *)

From Stdlib Require Import QArith Qminmax Qround Sorted Lqa.
From stdpp Require Import base option list gmap strings.

#[local] Open Scope Q_scope.

(** ** Numbers *)

Definition Qltb (a b : Q) : bool := negb (Qle_bool b a).
Definition Qgtb (a b : Q) : bool := Qltb b a.
Definition Qgeb (a b : Q) : bool := Qle_bool b a.

Definition ofNat (n : nat) : Q := inject_Z (Z.of_nat n).

(** ** The game API (types of @chronodivide/game-api that the code reads) *)

Inductive QueueType : Set :=
  Structures | Armory | Infantry | Vehicles | Aircrafts | Ships.

Inductive QueueStatus : Set := Idle | Active | OnHold | Ready.

Inductive ObjectType : Set :=
  AircraftObject | BuildingObject | InfantryObject | VehicleObject.

#[global] Instance QueueType_eq_dec : EqDecision QueueType.
Proof. solve_decision. Defined.
#[global] Instance QueueStatus_eq_dec : EqDecision QueueStatus.
Proof. solve_decision. Defined.
#[global] Instance ObjectType_eq_dec : EqDecision ObjectType.
Proof. solve_decision. Defined.

Record Vector2 : Set := mkVector2 { vx : Z; vy : Z }.

Record Location : Set := mkLocation { rx : Z; ry : Z }.

Record TechnoRules : Set := mkTechnoRules {
  tr_ref : positive;
  tr_name : string;
  tr_type : ObjectType;
  tr_cost : Q
}.

(** [a == b] on two rules objects. *)
Definition sameRules (a b : TechnoRules) : bool :=
  bool_decide (tr_ref a = tr_ref b).

Record PlayerData : Set := mkPlayerData {
  pd_name : string;
  pd_credits : Q;
  pd_startLocation : Vector2
}.

Record GameObject : Set := mkGameObject {
  go_owner : string;
  go_rules : TechnoRules
}.

Record GameApi : Set := mkGameApi {
  game_units : list GameObject;
  getPlayers : list string;
  getPlayerData : string -> PlayerData;
  generateRandom : Q
}.

(** [game.getVisibleUnits(name, "self", pred)]: the player's own units whose
    rules satisfy [pred]. *)
Definition getVisibleUnits (game : GameApi) (playerName : string)
    (pred : TechnoRules -> bool) : list GameObject :=
  filter (fun u => bool_decide (go_owner u = playerName) && pred (go_rules u) = true)
         (game_units game).

Record QueueItem : Set := mkQueueItem {
  qi_rules : TechnoRules;
  qi_quantity : Z
}.

Record QueueData : Set := mkQueueData {
  qd_type : QueueType;
  qd_status : QueueStatus;
  qd_items : list QueueItem
}.

Record ProductionApi : Set := mkProductionApi {
  getAvailableObjects : QueueType -> list TechnoRules;
  getQueueData : QueueType -> QueueData
}.

(** ** Threat snapshot (the fields of [GlobalThreat] the code reads) *)

Record GlobalThreat : Set := mkGlobalThreat {
  totalOffensiveLandThreat : Q;
  totalAvailableAntiGroundFirepower : Q;
  totalDefensivePower : Q
}.

(** ** The strategy interface [AiBuildingRules] *)

Record AiBuildingRules : Type := mkAiBuildingRules {
  getPlacementLocation : GameApi -> PlayerData -> TechnoRules -> option Location;
  getPriority : GameApi -> PlayerData -> TechnoRules -> option GlobalThreat -> Q;
  getMaxCount : GameApi -> PlayerData -> TechnoRules -> option GlobalThreat -> option Q
}.

(** ** Recorded effects *)

Inductive LogMessage : Set :=
| MsgDecision (queueName unitName : string)
| MsgDequeue (queueName currentName newName : string)
| MsgPause (queueName : string) (priority total : Q)
| MsgResumeCredits (queueName : string)
| MsgResumeWeight (queueName : string) (priority total : Q)
| MsgBuildPriority (entries : list (string * Q)).

Inductive Event : Set :=
| Log (m : LogMessage)
| QueueForProduction (q : QueueType) (name : string) (ty : ObjectType) (n : Z)
| PlaceBuilding (name : string) (x y : Z)
| UnqueueFromProduction (q : QueueType) (name : string) (ty : ObjectType) (n : Z)
| PauseProduction (q : QueueType)
| ResumeProduction (q : QueueType).

Definition isCommand (e : Event) : bool :=
  match e with Log _ => false | _ => true end.

(** The commands of a trace, in order (the log entries dropped). *)
Definition commands (trace : list Event) : list Event := List.filter isCommand trace.

Definition isCancel (e : Event) : bool :=
  match e with UnqueueFromProduction _ _ _ _ => true | _ => false end.

Definition isPause (e : Event) : bool :=
  match e with PauseProduction _ => true | _ => false end.

Definition isResume (e : Event) : bool :=
  match e with ResumeProduction _ => true | _ => false end.

(** ** Array helpers *)

(** [Array.prototype.sort(cmp)]: a stable sort; [cmp a b <= 0] keeps [a]
    before [b]. *)
Section Sort.
Context {A : Type} (cmp : A -> A -> Q).

Fixpoint insertSorted (x : A) (l : list A) : list A :=
  match l with
  | [] => [x]
  | y :: l' =>
      if Qle_bool (cmp x y) 0 then x :: y :: l' else y :: insertSorted x l'
  end.

Fixpoint sort (l : list A) : list A :=
  match l with
  | [] => []
  | x :: l' => insertSorted x (sort l')
  end.
End Sort.

(** [Array.prototype.pop()]: the last element, [undefined] on an empty array. *)
Fixpoint pop {A : Type} (l : list A) : option A :=
  match l with
  | [] => None
  | [x] => Some x
  | _ :: l' => pop l'
  end.

(** [arr.reduce((pV, cV) => pV + cV, 0)] *)
Definition reduceSum (l : list Q) : Q := fold_left Qplus l 0.

(** ** antiGroundStaticDefence.ts *)

Section Strategies.
(** Helpers imported from buildingRules.js and map.js, which are not part
    of the verified sources. *)
Variable numBuildingsOwnedOfType : GameApi -> PlayerData -> TechnoRules -> nat.
Variable getPointTowardsOtherPoint :
  GameApi -> Vector2 -> Vector2 -> Q -> Q -> Q -> Vector2.
Variable getDefaultPlacementLocation :
  GameApi -> PlayerData -> option Vector2 -> TechnoRules ->
  option bool -> option Q -> option Location.

Section AntiGroundStaticDefence.
Variables basePriority baseAmount groundStrength : Q.

Definition enemyFacingLocationCandidates (game : GameApi) (playerData : PlayerData)
    : list Vector2 :=
  let startLocation := pd_startLocation playerData in
  fold_left
    (fun acc playerName =>
       if bool_decide (playerName = pd_name playerData) then acc
       else
         let enemyPlayer := getPlayerData game playerName in
         acc ++ [getPointTowardsOtherPoint game startLocation
                   (pd_startLocation enemyPlayer) 4 16 (3 # 2)])
    (getPlayers game) [].

Definition AntiGround_getPlacementLocation (game : GameApi) (playerData : PlayerData)
    (technoRules : TechnoRules) : option Location :=
  let candidates := enemyFacingLocationCandidates game playerData in
  let index := Qfloor (generateRandom game * ofNat (length candidates)) in
  let selectedLocation :=
    if (index <? 0)%Z then None else candidates !! Z.to_nat index in
  getDefaultPlacementLocation game playerData selectedLocation technoRules
    (Some false) (Some 0).

Definition AntiGround_getPriority (game : GameApi) (playerData : PlayerData)
    (technoRules : TechnoRules) (threatCache : option GlobalThreat) : Q :=
  match threatCache with
  | Some threat =>
      let denominator :=
        totalAvailableAntiGroundFirepower threat + totalDefensivePower threat
        + groundStrength in
      if Qgtb (totalOffensiveLandThreat threat) (denominator * (11 # 10)) then
        basePriority * (totalOffensiveLandThreat threat / Qmax 1 denominator)
      else 0
  | None =>
      let strengthPerCost := (groundStrength / tr_cost technoRules) * 1000 in
      let numOwned := ofNat (numBuildingsOwnedOfType game playerData technoRules) in
      basePriority * (1 - numOwned / baseAmount) * strengthPerCost
  end.

Definition AntiGround_getMaxCount (game : GameApi) (playerData : PlayerData)
    (technoRules : TechnoRules) (threatCache : option GlobalThreat) : option Q :=
  None.

Definition AntiGroundStaticDefence : AiBuildingRules :=
  {| getPlacementLocation := AntiGround_getPlacementLocation;
     getPriority := AntiGround_getPriority;
     getMaxCount := AntiGround_getMaxCount |}.
End AntiGroundStaticDefence.
End Strategies.

(** ** queueController.ts *)

Definition queueTypeToName (queue : QueueType) : string :=
  match queue with
  | Structures => "Structures"
  | Armory => "Armory"
  | Infantry => "Infantry"
  | Vehicles => "Vehicles"
  | Aircrafts => "Aircrafts"
  | Ships => "Ships"
  end.

(** [TechnoRulesWithPriority] (declared in building.js): [{ unit, priority }]. *)
Record TechnoRulesWithPriority : Set := mkTechnoRulesWithPriority {
  unit : TechnoRules;
  priority : Q
}.

(** One entry of the [decisions] array of [onAiUpdate]. *)
Record QueueDecision : Set := mkQueueDecision {
  queue : QueueType;
  decision : option TechnoRulesWithPriority
}.

(** The arguments of one call of [updateBuildQueue] made by [onAiUpdate]
    (the arguments that are the same at every call are left out). *)
Record StepCall : Set := mkStepCall {
  call_queue : QueueType;
  call_decision : option TechnoRulesWithPriority;
  call_totalWeight : Q;
  call_totalCost : Q
}.

Definition queues : list QueueType :=
  [Structures; Armory; Infantry; Vehicles; Aircrafts; Ships].

Section QueueController.
(** Imports from building.js, which is not part of the verified sources:
    the strategy table, the fallback priority and the fallback placement
    search. *)
Variable BUILDING_NAME_TO_RULES : gmap string AiBuildingRules.
Variable DEFAULT_BUILDING_PRIORITY : Q.
Variable getDefaultPlacementLocation :
  GameApi -> PlayerData -> option Vector2 -> TechnoRules ->
  option bool -> option Q -> option Location.

Definition getPriorityForBuildingOption (opt : TechnoRules) (game : GameApi)
    (playerStatus : PlayerData) (threatCache : option GlobalThreat) : Q :=
  match BUILDING_NAME_TO_RULES !! tr_name opt with
  | Some logic => getPriority logic game playerStatus opt threatCache
  | None =>
      (* Fallback priority when there are no rules. *)
      DEFAULT_BUILDING_PRIORITY
      - ofNat (length (getVisibleUnits game (pd_name playerStatus)
                         (fun r => sameRules r opt)))
  end.

Definition getBestLocationForStructure (game : GameApi) (playerData : PlayerData)
    (objectReady : TechnoRules) : option Location :=
  match BUILDING_NAME_TO_RULES !! tr_name objectReady with
  | Some logic => getPlacementLocation logic game playerData objectReady
  | None =>
      (* fallback placement logic *)
      getDefaultPlacementLocation game playerData
        (Some (pd_startLocation playerData)) objectReady None None
  end.

(** The [forEach] of [getBestOptionForBuilding] that fills [priorityQueue]. *)
Definition pushScored (game : GameApi) (threatCache : option GlobalThreat)
    (playerData : PlayerData) (priorityQueue : list TechnoRulesWithPriority)
    (opt : TechnoRules) : list TechnoRulesWithPriority :=
  let priority := getPriorityForBuildingOption opt game playerData threatCache in
  if Qgtb priority 0 then
    priorityQueue ++ [{| unit := opt; priority := priority |}]
  else priorityQueue.

Definition getBestOptionForBuilding (game : GameApi) (options : list TechnoRules)
    (threatCache : option GlobalThreat) (playerData : PlayerData) (debug : bool)
    : option TechnoRulesWithPriority * list Event :=
  let priorityQueue := fold_left (pushScored game threatCache playerData) options [] in
  let priorityQueue := sort (fun a b => priority a - priority b) priorityQueue in
  let logged :=
    if bool_decide (0 < length priorityQueue)%nat && debug then
      [Log (MsgBuildPriority
              (map (fun item => (tr_name (unit item), priority item)) priorityQueue))]
    else [] in
  (pop priorityQueue, logged).

Definition updateBuildQueue (game : GameApi) (productionApi : ProductionApi)
    (playerData : PlayerData) (threatCache : option GlobalThreat)
    (queueType : QueueType) (decision : option TechnoRulesWithPriority)
    (totalWeightAcrossQueues totalCostAcrossQueues : Q) : list Event :=
  let myCredits := pd_credits playerData in
  let queueData := getQueueData productionApi queueType in
  if bool_decide (qd_status queueData = Idle) then
    (* Start building the decided item. *)
    match decision with
    | Some decision =>
        [Log (MsgDecision (queueTypeToName queueType) (tr_name (unit decision)));
         QueueForProduction queueType (tr_name (unit decision))
           (tr_type (unit decision)) 1]
    | None => []
    end
  else
  match qd_status queueData, qd_items queueData, decision with
  | Ready, item :: _, _ =>
      (* Consider placing it. *)
      let objectReady := qi_rules item in
      if bool_decide (queueType = Structures) || bool_decide (queueType = Armory) then
        match getBestLocationForStructure game playerData objectReady with
        | Some location =>
            [PlaceBuilding (tr_name objectReady) (rx location) (ry location)]
        | None => []
        end
      else []
  | Active, item :: _, Some decision =>
      (* Consider cancelling if something else is significantly higher priority. *)
      let current := qi_rules item in
      if negb (sameRules (unit decision) current) then
        (* Changing our mind. *)
        let currentItemPriority :=
          getPriorityForBuildingOption current game playerData threatCache in
        let newItemPriority := priority decision in
        if Qgtb newItemPriority (currentItemPriority * 2) then
          [Log (MsgDequeue (queueTypeToName (qd_type queueData)) (tr_name current)
                  (tr_name (unit decision)));
           UnqueueFromProduction (qd_type queueData) (tr_name current)
             (tr_type current) 1]
        else []
      else
        (* Not changing our mind, but maybe other queues are more important for now. *)
        if Qgtb totalCostAcrossQueues myCredits
           && Qltb (priority decision) (totalWeightAcrossQueues * (1 # 4)) then
          [Log (MsgPause (queueTypeToName (qd_type queueData)) (priority decision)
                  totalWeightAcrossQueues);
           PauseProduction (qd_type queueData)]
        else []
  | OnHold, _, _ =>
      (* Consider resuming queue if priority is high relative to other queues. *)
      if Qgeb myCredits totalCostAcrossQueues then
        [Log (MsgResumeCredits (queueTypeToName (qd_type queueData)));
         ResumeProduction (qd_type queueData)]
      else
        match decision with
        | Some decision =>
            if Qgeb (priority decision) (totalWeightAcrossQueues * (1 # 4)) then
              [Log (MsgResumeWeight (queueTypeToName (qd_type queueData))
                      (priority decision) totalWeightAcrossQueues);
               ResumeProduction (qd_type queueData)]
            else []
        | None => []
        end
  | _, _, _ => []
  end.

(** [onAiUpdate], in the order of the source: the selection per queue, the
    filter on present decisions, the two totals, the [forEach]. *)
Section OnAiUpdate.
Variables (game : GameApi) (productionApi : ProductionApi)
          (playerData : PlayerData) (threatCache : option GlobalThreat).

Definition selections : list (QueueDecision * list Event) :=
  map (fun queueType =>
         let options := getAvailableObjects productionApi queueType in
         let best :=
           getBestOptionForBuilding game options threatCache playerData false in
         ({| queue := queueType; decision := fst best |}, snd best))
      queues.

Definition decisions : list QueueDecision :=
  filter (fun d => is_Some (decision d)) (map fst selections).

(** [decision.decision?.priority!]: the filter above makes the value
    present, see [decisions_present]. *)
Definition totalWeightAcrossQueues : Q :=
  reduceSum (map (fun d => from_option priority 0 (decision d)) decisions).

Definition totalCostAcrossQueues : Q :=
  reduceSum (map (fun d => from_option (fun w => tr_cost (unit w)) 0 (decision d))
                 decisions).

Definition stepCalls : list StepCall :=
  map (fun d =>
         {| call_queue := queue d;
            call_decision := decision d;
            call_totalWeight := totalWeightAcrossQueues;
            call_totalCost := totalCostAcrossQueues |})
      decisions.

Definition runStep (c : StepCall) : list Event :=
  updateBuildQueue game productionApi playerData threatCache
    (call_queue c) (call_decision c) (call_totalWeight c) (call_totalCost c).

Definition onAiUpdate : list Event :=
  concat (map snd selections) ++ concat (map runStep stepCalls).
End OnAiUpdate.
End QueueController.

(** * Notions used in the statements *)

Definition byPriority (a b : TechnoRulesWithPriority) : Q := priority a - priority b.

Definition lePriority (a b : TechnoRulesWithPriority) : Prop := priority a <= priority b.

(** The last maximum of a list, computed from the right. *)
Fixpoint lastMax (l : list TechnoRulesWithPriority) : option TechnoRulesWithPriority :=
  match l with
  | [] => None
  | x :: l' =>
      match lastMax l' with
      | None => Some x
      | Some w => if Qle_bool (priority x) (priority w) then Some w else Some x
      end
  end.

(** Sum of a list of numbers, written from the right. *)
Definition sumQ (l : list Q) : Q := fold_right Qplus 0 l.

(** The number of the player's own units built from [opt]. *)
Definition ownedCount (game : GameApi) (playerStatus : PlayerData) (opt : TechnoRules) : nat :=
  length (getVisibleUnits game (pd_name playerStatus) (fun r => sameRules r opt)).

Section Notions.
Variable BUILDING_NAME_TO_RULES : gmap string AiBuildingRules.
Variable DEFAULT_BUILDING_PRIORITY : Q.
Variable getDefaultPlacementLocation :
  GameApi -> PlayerData -> option Vector2 -> TechnoRules ->
  option bool -> option Q -> option Location.
Variables (game : GameApi) (productionApi : ProductionApi)
          (playerData : PlayerData) (threatCache : option GlobalThreat).

#[local] Abbreviation score o :=
  (getPriorityForBuildingOption BUILDING_NAME_TO_RULES DEFAULT_BUILDING_PRIORITY
     o game playerData threatCache).
#[local] Abbreviation theCalls :=
  (stepCalls BUILDING_NAME_TO_RULES DEFAULT_BUILDING_PRIORITY
     game productionApi playerData threatCache).
#[local] Abbreviation theStep :=
  (runStep BUILDING_NAME_TO_RULES DEFAULT_BUILDING_PRIORITY getDefaultPlacementLocation
     game productionApi playerData threatCache).

(** The content of [priorityQueue] before it is sorted. *)
Fixpoint positivelyScored (options : list TechnoRules) : list TechnoRulesWithPriority :=
  match options with
  | [] => []
  | o :: rest =>
      if Qgtb (score o) 0 then {| unit := o; priority := score o |} :: positivelyScored rest
      else positivelyScored rest
  end.

(** What it means for [w] to be the winner among [options]: it is one of the
    options, with its own positive score; nothing listed before it scores
    more, and everything listed after it scores strictly less. *)
Definition isWinner (options : list TechnoRules) (w : TechnoRulesWithPriority) : Prop :=
  0 < priority w /\
  priority w = score (unit w) /\
  exists before after,
    options = before ++ unit w :: after /\
    Forall (fun o => score o <= priority w) before /\
    Forall (fun o => score o < priority w) after.

(** The selector's answer for one queue on this tick. *)
Definition winnerOf (queueType : QueueType) : option TechnoRulesWithPriority :=
  fst (getBestOptionForBuilding BUILDING_NAME_TO_RULES DEFAULT_BUILDING_PRIORITY game
         (getAvailableObjects productionApi queueType) threatCache playerData false).

(** The winners selected on this tick, in queue order. *)
Definition winners : list TechnoRulesWithPriority := omap winnerOf queues.

(** The queues that have a winner on this tick. *)
Definition queuesWithWinner : list QueueType :=
  filter (fun q => is_Some (winnerOf q)) queues.

(** The commands that the tick's steps issue on behalf of one queue. *)
Definition commandsFor (queueType : QueueType) : list Event :=
  commands (concat (map theStep
    (List.filter (fun c => bool_decide (call_queue c = queueType)) theCalls))).

End Notions.

(** * A worked tick *)

Module Scenario.

Definition pillbox : TechnoRules :=
  {| tr_ref := 1; tr_name := "GAPILL"; tr_type := BuildingObject; tr_cost := 500 |}.
Definition refinery : TechnoRules :=
  {| tr_ref := 2; tr_name := "GAREFN"; tr_type := BuildingObject; tr_cost := 2000 |}.
Definition tank : TechnoRules :=
  {| tr_ref := 3; tr_name := "MTNK"; tr_type := VehicleObject; tr_cost := 700 |}.
Definition harvester : TechnoRules :=
  {| tr_ref := 4; tr_name := "CMIN"; tr_type := VehicleObject; tr_cost := 1400 |}.
Definition rifleman : TechnoRules :=
  {| tr_ref := 5; tr_name := "E1"; tr_type := InfantryObject; tr_cost := 200 |}.

Definition me : PlayerData :=
  {| pd_name := "bot"; pd_credits := 1000; pd_startLocation := mkVector2 10 10 |}.
Definition opponent : PlayerData :=
  {| pd_name := "enemy"; pd_credits := 1000; pd_startLocation := mkVector2 90 90 |}.

Definition owns (owner : string) (n : nat) (rules : TechnoRules) : list GameObject :=
  replicate n {| go_owner := owner; go_rules := rules |}.

Definition world (units : list GameObject) : GameApi :=
  {| game_units := units;
     getPlayers := ["bot"; "enemy"];
     getPlayerData := fun n => if bool_decide (n = "bot") then me else opponent;
     generateRandom := 1 # 2 |}.

(** Stand-ins for the helpers of buildingRules.js and map.js. *)
Definition countOwned (game : GameApi) (playerData : PlayerData) (rules : TechnoRules) : nat :=
  ownedCount game playerData rules.
Definition pointTowards (game : GameApi) (a b : Vector2) (lo hi spread : Q) : Vector2 := b.
Definition placeAtIdeal (game : GameApi) (playerData : PlayerData) (ideal : option Vector2)
    (rules : TechnoRules) (onWater : option bool) (space : option Q) : option Location :=
  (fun v => mkLocation (vx v) (vy v)) <$> ideal.

Definition pillboxRules : AiBuildingRules :=
  AntiGroundStaticDefence countOwned pointTowards placeAtIdeal 10 2 5.

Definition table : gmap string AiBuildingRules := {[ "GAPILL" := pillboxRules ]}.

Definition calmThreat : GlobalThreat :=
  {| totalOffensiveLandThreat := 0;
     totalAvailableAntiGroundFirepower := 100;
     totalDefensivePower := 50 |}.

(** A tick on which the structure queue is on hold with a pillbox in front,
    the only structure on offer is the pillbox, and the vehicle queue is idle
    with a tank on offer. *)
Definition production : ProductionApi :=
  {| getAvailableObjects := fun q =>
       match q with
       | Structures => [pillbox]
       | Vehicles => [tank]
       | _ => []
       end;
     getQueueData := fun q =>
       match q with
       | Structures =>
           {| qd_type := Structures; qd_status := OnHold;
              qd_items := [{| qi_rules := pillbox; qi_quantity := 1 |}] |}
       | _ => {| qd_type := q; qd_status := Idle; qd_items := [] |}
       end |}.


(** The vehicle queue is building a harvester. *)
Definition busyProduction : ProductionApi :=
  {| getAvailableObjects := getAvailableObjects production;
     getQueueData := fun q =>
       match q with
       | Vehicles =>
           {| qd_type := Vehicles; qd_status := Active;
              qd_items := [{| qi_rules := harvester; qi_quantity := 1 |}] |}
       | _ => getQueueData production q
       end |}.

Definition tankAt (p : Q) : TechnoRulesWithPriority := {| unit := tank; priority := p |}.
Definition harvesterAt (p : Q) : TechnoRulesWithPriority :=
  {| unit := harvester; priority := p |}.

End Scenario.

(** * Further notions *)

Definition isEnqueue (e : Event) : bool :=
  match e with QueueForProduction _ _ _ _ => true | _ => false end.

Definition isPlace (e : Event) : bool :=
  match e with PlaceBuilding _ _ _ => true | _ => false end.

(** One entry of the debug line of [getBestOptionForBuilding]. *)
Definition entryOf (item : TechnoRulesWithPriority) : string * Q :=
  (tr_name (unit item), priority item).

(** The players other than [playerData], in the order of [game.getPlayers()]. *)
Definition otherPlayers (game : GameApi) (playerData : PlayerData) : list string :=
  List.filter (fun n => negb (bool_decide (n = pd_name playerData))) (getPlayers game).

(** The [selectedLocation] of [AntiGroundStaticDefence.getPlacementLocation]. *)
Definition selectedLocation
    (getPointTowardsOtherPoint : GameApi -> Vector2 -> Vector2 -> Q -> Q -> Q -> Vector2)
    (game : GameApi) (playerData : PlayerData) : option Vector2 :=
  let candidates := enemyFacingLocationCandidates getPointTowardsOtherPoint game playerData in
  let index := Qfloor (generateRandom game * ofNat (length candidates)) in
  if (index <? 0)%Z then None else candidates !! Z.to_nat index.

Section FurtherNotions.
Variable BUILDING_NAME_TO_RULES : gmap string AiBuildingRules.
Variable DEFAULT_BUILDING_PRIORITY : Q.
Variable getDefaultPlacementLocation :
  GameApi -> PlayerData -> option Vector2 -> TechnoRules ->
  option bool -> option Q -> option Location.
Variables (game : GameApi) (productionApi : ProductionApi)
          (playerData : PlayerData) (threatCache : option GlobalThreat).

(** What must hold of the inputs of a step for that step to issue the
    command [e]. *)
Definition commandGuard (queueType : QueueType)
    (decision : option TechnoRulesWithPriority) (totalWeight totalCost : Q)
    (e : Event) : Prop :=
  let queueData := getQueueData productionApi queueType in
  match e with
  | Log _ => True
  | QueueForProduction q name ty n =>
      qd_status queueData = Idle /\ q = queueType /\ n = 1%Z /\
      exists d, decision = Some d /\ name = tr_name (unit d) /\ ty = tr_type (unit d)
  | PlaceBuilding name x y =>
      qd_status queueData = Ready /\ (queueType = Structures \/ queueType = Armory) /\
      exists item rest,
        qd_items queueData = item :: rest /\ name = tr_name (qi_rules item) /\
        getBestLocationForStructure BUILDING_NAME_TO_RULES getDefaultPlacementLocation
          game playerData (qi_rules item) = Some {| rx := x; ry := y |}
  | UnqueueFromProduction q name ty n =>
      qd_status queueData = Active /\ q = qd_type queueData /\ n = 1%Z /\
      exists d item rest,
        decision = Some d /\ qd_items queueData = item :: rest /\
        sameRules (unit d) (qi_rules item) = false /\
        name = tr_name (qi_rules item) /\ ty = tr_type (qi_rules item) /\
        getPriorityForBuildingOption BUILDING_NAME_TO_RULES DEFAULT_BUILDING_PRIORITY
          (qi_rules item) game playerData threatCache * 2 < priority d
  | PauseProduction q =>
      qd_status queueData = Active /\ q = qd_type queueData /\
      exists d item rest,
        decision = Some d /\ qd_items queueData = item :: rest /\
        sameRules (unit d) (qi_rules item) = true /\
        pd_credits playerData < totalCost /\ priority d < totalWeight * (1 # 4)
  | ResumeProduction q =>
      qd_status queueData = OnHold /\ q = qd_type queueData /\
      (totalCost <= pd_credits playerData \/
       exists d, decision = Some d /\ totalWeight * (1 # 4) <= priority d)
  end.

End FurtherNotions.

(** * More worked ticks *)

Module Skirmish.
Import Scenario.

(** The vehicle queue is on hold with a harvester in front. *)
Definition heldProduction : ProductionApi :=
  {| getAvailableObjects := getAvailableObjects production;
     getQueueData := fun q =>
       match q with
       | Vehicles =>
           {| qd_type := Vehicles; qd_status := OnHold;
              qd_items := [{| qi_rules := harvester; qi_quantity := 1 |}] |}
       | _ => getQueueData production q
       end |}.

(** Only the pillbox is on offer, a finished pillbox waits in the structure
    queue, and every other queue is idle with nothing on offer. *)
Definition quietProduction : ProductionApi :=
  {| getAvailableObjects := fun q =>
       match q with
       | Structures => [pillbox]
       | _ => []
       end;
     getQueueData := fun q =>
       match q with
       | Structures =>
           {| qd_type := Structures; qd_status := Ready;
              qd_items := [{| qi_rules := pillbox; qi_quantity := 1 |}] |}
       | _ => {| qd_type := q; qd_status := Idle; qd_items := [] |}
       end |}.

Definition pressingThreat : GlobalThreat :=
  {| totalOffensiveLandThreat := 200;
     totalAvailableAntiGroundFirepower := 100;
     totalDefensivePower := 65 |}.

Definition mildThreat : GlobalThreat :=
  {| totalOffensiveLandThreat := 190;
     totalAvailableAntiGroundFirepower := 100;
     totalDefensivePower := 65 |}.

End Skirmish.

(** * Properties *)

(** ** Comparisons *)

Lemma Qltb_lt (a b : Q) : Qltb a b = true <-> a < b.
Proof.
  unfold Qltb. rewrite negb_true_iff, <- not_true_iff_false, Qle_bool_iff.
  split; [apply Qnot_le_lt | apply Qlt_not_le].
Qed.

Lemma Qltb_ge (a b : Q) : Qltb a b = false <-> b <= a.
Proof. unfold Qltb. rewrite negb_false_iff. apply Qle_bool_iff. Qed.

Lemma Qgtb_gt (a b : Q) : Qgtb a b = true <-> b < a.
Proof. apply Qltb_lt. Qed.

Lemma Qgtb_le (a b : Q) : Qgtb a b = false <-> a <= b.
Proof. apply Qltb_ge. Qed.

Lemma Qgeb_ge (a b : Q) : Qgeb a b = true <-> b <= a.
Proof. apply Qle_bool_iff. Qed.

Lemma Qgeb_lt (a b : Q) : Qgeb a b = false <-> a < b.
Proof.
  unfold Qgeb. rewrite <- not_true_iff_false, Qle_bool_iff.
  split; [apply Qnot_le_lt | apply Qlt_not_le].
Qed.

(** Turns the boolean comparisons among the hypotheses into propositions. *)
Ltac qprop :=
  repeat match goal with
    | H : Qgtb _ _ = true |- _ => apply Qgtb_gt in H
    | H : Qgtb _ _ = false |- _ => apply Qgtb_le in H
    | H : Qltb _ _ = true |- _ => apply Qltb_lt in H
    | H : Qltb _ _ = false |- _ => apply Qltb_ge in H
    | H : Qgeb _ _ = true |- _ => apply Qgeb_ge in H
    | H : Qgeb _ _ = false |- _ => apply Qgeb_lt in H
    end.

(** ** The stable sort and [pop] *)


Lemma cmp_priority_le (a b : TechnoRulesWithPriority) :
  Qle_bool (byPriority a b) 0 = true <-> priority a <= priority b.
Proof. unfold byPriority. rewrite Qle_bool_iff. split; intros H; lra. Qed.



Lemma insertSorted_not_nil x l : insertSorted byPriority x l <> [].
Proof. destruct l as [|y l]; simpl; [|destruct (Qle_bool _ _)]; discriminate. Qed.

Lemma pop_cons_not_nil {A} (x : A) l : l <> [] -> pop (x :: l) = pop l.
Proof. destruct l; [congruence | reflexivity]. Qed.

Lemma pop_None {A} (l : list A) : pop l = None <-> l = [].
Proof.
  induction l as [|x [|y l] IH]; simpl in *; split; try congruence.
  intros H. apply IH in H. discriminate.
Qed.

Lemma pop_is_max l w :
  StronglySorted lePriority l -> pop l = Some w -> Forall (fun y => lePriority y w) l.
Proof.
  induction 1 as [|x l Hs IH Hall]; intros Hpop; [constructor|].
  destruct l as [|y l].
  - simpl in Hpop. injection Hpop as <-. repeat constructor. unfold lePriority. lra.
  - rewrite pop_cons_not_nil in Hpop by discriminate.
    specialize (IH Hpop). constructor; [|exact IH].
    apply Forall_inv in Hall, IH. unfold lePriority in *. lra.
Qed.

Lemma insertSorted_Forall (P : TechnoRulesWithPriority -> Prop) x l :
  P x -> Forall P l -> Forall P (insertSorted byPriority x l).
Proof.
  intros Hx. induction 1 as [|y l Hy Hl IH]; simpl.
  - repeat constructor; exact Hx.
  - destruct (Qle_bool _ _); repeat constructor; assumption.
Qed.

Lemma insertSorted_sorted x l :
  StronglySorted lePriority l -> StronglySorted lePriority (insertSorted byPriority x l).
Proof.
  induction 1 as [|y l Hs IH Hall]; simpl.
  - repeat constructor.
  - destruct (Qle_bool (byPriority x y) 0) eqn:E.
    + apply cmp_priority_le in E.
      constructor; [constructor; assumption|].
      constructor; [exact E|].
      eapply Forall_impl; [exact Hall|].
      unfold lePriority. simpl. intros z Hz. lra.
    + constructor; [exact IH|].
      apply insertSorted_Forall; [|exact Hall].
      apply not_true_iff_false in E. rewrite cmp_priority_le in E.
      unfold lePriority. lra.
Qed.

Lemma sort_sorted l : StronglySorted lePriority (sort byPriority l).
Proof.
  induction l as [|x l IH]; simpl; [constructor | apply insertSorted_sorted, IH].
Qed.

Lemma pop_insertSorted x l :
  StronglySorted lePriority l ->
  pop (insertSorted byPriority x l) =
    match pop l with
    | None => Some x
    | Some w => if Qle_bool (priority x) (priority w) then Some w else Some x
    end.
Proof.
  induction 1 as [|y l Hs IH Hall]; [reflexivity|].
  cbn [insertSorted].
  destruct (Qle_bool (byPriority x y) 0) eqn:E.
  - rewrite pop_cons_not_nil by discriminate.
    destruct (pop (y :: l)) as [w|] eqn:Hw; [|apply pop_None in Hw; discriminate].
    apply cmp_priority_le in E.
    assert (Hyw : lePriority y w).
    { assert (Hmax : Forall (fun z => lePriority z w) (y :: l)).
      { apply pop_is_max; [constructor; assumption | exact Hw]. }
      apply Forall_inv in Hmax. exact Hmax. }
    assert (Hxw : priority x <= priority w) by (unfold lePriority in Hyw; lra).
    apply Qle_bool_iff in Hxw. rewrite Hxw. reflexivity.
  - rewrite pop_cons_not_nil by apply insertSorted_not_nil.
    rewrite IH. destruct l as [|z l]; simpl pop at 1.
    + simpl.
      destruct (Qle_bool (priority x) (priority y)) eqn:E'; [|reflexivity].
      apply Qle_bool_iff in E'. apply not_true_iff_false in E.
      rewrite cmp_priority_le in E. contradiction.
    + rewrite (pop_cons_not_nil y (z :: l)) by discriminate. reflexivity.
Qed.

Lemma pop_sort l : pop (sort byPriority l) = lastMax l.
Proof.
  induction l as [|x l IH]; [reflexivity|].
  simpl. rewrite pop_insertSorted by apply sort_sorted. rewrite IH. reflexivity.
Qed.

(** ** The per-queue selector *)

Section SelectorFacts.
Variable BUILDING_NAME_TO_RULES : gmap string AiBuildingRules.
Variable DEFAULT_BUILDING_PRIORITY : Q.
Variables (game : GameApi) (threatCache : option GlobalThreat) (playerData : PlayerData).

#[local] Abbreviation score o :=
  (getPriorityForBuildingOption BUILDING_NAME_TO_RULES DEFAULT_BUILDING_PRIORITY
     o game playerData threatCache).
#[local] Abbreviation scored options :=
  (positivelyScored BUILDING_NAME_TO_RULES DEFAULT_BUILDING_PRIORITY
     game playerData threatCache options).
#[local] Abbreviation winnerAmong options w :=
  (isWinner BUILDING_NAME_TO_RULES DEFAULT_BUILDING_PRIORITY
     game playerData threatCache options w).
#[local] Abbreviation best options debug :=
  (fst (getBestOptionForBuilding BUILDING_NAME_TO_RULES DEFAULT_BUILDING_PRIORITY
          game options threatCache playerData debug)).


Lemma fold_pushScored options acc :
  fold_left (pushScored BUILDING_NAME_TO_RULES DEFAULT_BUILDING_PRIORITY
               game threatCache playerData) options acc
  = acc ++ scored options.
Proof.
  revert acc. induction options as [|o rest IH]; intros acc; simpl.
  - symmetry. apply app_nil_r.
  - rewrite IH. unfold pushScored. destruct (Qgtb (score o) 0); [|reflexivity].
    rewrite <- app_assoc. reflexivity.
Qed.

Lemma best_lastMax options debug : best options debug = lastMax (scored options).
Proof.
  unfold getBestOptionForBuilding. cbn [fst].
  rewrite fold_pushScored. cbn [app]. apply pop_sort.
Qed.


Lemma lastMax_winner options :
  match lastMax (scored options) with
  | Some w => winnerAmong options w
  | None => Forall (fun o => score o <= 0) options
  end.
Proof.
  induction options as [|o rest IH]; simpl; [constructor|].
  destruct (Qgtb (score o) 0) eqn:Epos.
  - apply Qgtb_gt in Epos. simpl.
    destruct (lastMax (scored rest)) as [w|].
    + destruct IH as (Hw & Hsc & before & after & -> & Hb & Ha).
      destruct (Qle_bool (score o) (priority w)) eqn:E.
      * apply Qle_bool_iff in E.
        split; [exact Hw|]. split; [exact Hsc|].
        exists (o :: before), after. split; [reflexivity|].
        split; [constructor; assumption | exact Ha].
      * apply not_true_iff_false in E. rewrite Qle_bool_iff in E.
        apply Qnot_le_lt in E.
        split; [exact Epos|]. split; [reflexivity|].
        exists [], (before ++ unit w :: after). split; [reflexivity|].
        split; [constructor|]. simpl.
        apply Forall_app. split; [|constructor].
        -- eapply Forall_impl; [exact Hb|]. simpl. intros z Hz. lra.
        -- rewrite <- Hsc. exact E.
        -- eapply Forall_impl; [exact Ha|]. simpl. intros z Hz. lra.
    + split; [exact Epos|]. split; [reflexivity|].
      exists [], rest. split; [reflexivity|]. split; [constructor|].
      eapply Forall_impl; [exact IH|]. simpl. intros z Hz. lra.
  - apply Qgtb_le in Epos.
    destruct (lastMax (scored rest)) as [w|].
    + destruct IH as (Hw & Hsc & before & after & -> & Hb & Ha).
      split; [exact Hw|]. split; [exact Hsc|].
      exists (o :: before), after. split; [reflexivity|].
      split; [|exact Ha]. constructor; [cbn beta | exact Hb].
      apply Qle_trans with 0; [exact Epos | apply Qlt_le_weak, Hw].
    + constructor; assumption.
Qed.

(** C4. The selector drops every option whose score is not positive; when it
    returns a winner, the winner is an option with a positive score that is
    maximal, and every option listed after it scores strictly less (so among
    equal maximal scores the last listed wins); it returns nothing exactly
    when no option has a positive score. *)
Theorem getBestOptionForBuilding_last_maximum (options : list TechnoRules) (debug : bool) :
  (forall w, best options debug = Some w -> winnerAmong options w) /\
  (best options debug = None <-> Forall (fun o => score o <= 0) options) /\
  (forall w, best options debug = Some w -> ~ priority w <= 0).
Proof.
  rewrite best_lastMax. pose proof (lastMax_winner options) as H.
  destruct (lastMax (scored options)) as [w|].
  - split; [intros ? [= <-]; exact H|]. split.
    + split; [discriminate|]. intros Hall. exfalso.
      destruct H as (Hw & Hsc & before & after & -> & _ & _).
      apply Forall_app in Hall as [_ Hall]. apply Forall_inv in Hall.
      rewrite Hsc in Hw. cbn beta in Hall. lra.
    + intros ? [= <-] Hle. destruct H as [Hw _]. lra.
  - split; [discriminate|]. split; [tauto | discriminate].
Qed.

End SelectorFacts.

(** ** The per-queue state machine *)

Section StepFacts.
Variable BUILDING_NAME_TO_RULES : gmap string AiBuildingRules.
Variable DEFAULT_BUILDING_PRIORITY : Q.
Variable getDefaultPlacementLocation :
  GameApi -> PlayerData -> option Vector2 -> TechnoRules ->
  option bool -> option Q -> option Location.
Variables (game : GameApi) (productionApi : ProductionApi)
          (playerData : PlayerData) (threatCache : option GlobalThreat).

#[local] Abbreviation score o :=
  (getPriorityForBuildingOption BUILDING_NAME_TO_RULES DEFAULT_BUILDING_PRIORITY
     o game playerData threatCache).
#[local] Abbreviation step queueType decision totalWeight totalCost :=
  (updateBuildQueue BUILDING_NAME_TO_RULES DEFAULT_BUILDING_PRIORITY
     getDefaultPlacementLocation game productionApi playerData threatCache
     queueType decision totalWeight totalCost).

(** The trace of a step on an [Active] queue whose front item is not the
    winner's item. *)
Lemma step_active_changed queueType d item rest totalWeight totalCost :
  qd_status (getQueueData productionApi queueType) = Active ->
  qd_items (getQueueData productionApi queueType) = item :: rest ->
  sameRules (unit d) (qi_rules item) = false ->
  step queueType (Some d) totalWeight totalCost =
    if Qgtb (priority d) (score (qi_rules item) * 2) then
      [Log (MsgDequeue (queueTypeToName (qd_type (getQueueData productionApi queueType)))
              (tr_name (qi_rules item)) (tr_name (unit d)));
       UnqueueFromProduction (qd_type (getQueueData productionApi queueType))
         (tr_name (qi_rules item)) (tr_type (qi_rules item)) 1]
    else [].
Proof.
  intros Hst Hit Hne. unfold updateBuildQueue. rewrite Hst, Hit, Hne. reflexivity.
Qed.

(** The trace of a step on an [Active] queue whose front item is the winner's
    item. *)
Lemma step_active_same queueType d item rest totalWeight totalCost :
  qd_status (getQueueData productionApi queueType) = Active ->
  qd_items (getQueueData productionApi queueType) = item :: rest ->
  sameRules (unit d) (qi_rules item) = true ->
  step queueType (Some d) totalWeight totalCost =
    if Qgtb totalCost (pd_credits playerData)
       && Qltb (priority d) (totalWeight * (1 # 4)) then
      [Log (MsgPause (queueTypeToName (qd_type (getQueueData productionApi queueType)))
              (priority d) totalWeight);
       PauseProduction (qd_type (getQueueData productionApi queueType))]
    else [].
Proof.
  intros Hst Hit Heq. unfold updateBuildQueue. rewrite Hst, Hit, Heq. reflexivity.
Qed.

(** The trace of a step on a queue that is [OnHold], whatever the decision. *)
Lemma step_on_hold queueType decision totalWeight totalCost :
  qd_status (getQueueData productionApi queueType) = OnHold ->
  step queueType decision totalWeight totalCost =
    if Qgeb (pd_credits playerData) totalCost then
      [Log (MsgResumeCredits (queueTypeToName (qd_type (getQueueData productionApi queueType))));
       ResumeProduction (qd_type (getQueueData productionApi queueType))]
    else
      match decision with
      | Some d =>
          if Qgeb (priority d) (totalWeight * (1 # 4)) then
            [Log (MsgResumeWeight (queueTypeToName (qd_type (getQueueData productionApi queueType)))
                    (priority d) totalWeight);
             ResumeProduction (qd_type (getQueueData productionApi queueType))]
          else []
      | None => []
      end.
Proof.
  intros Hst. unfold updateBuildQueue. rewrite Hst. cbn [bool_decide decide_rel].
  destruct (qd_items (getQueueData productionApi queueType)); reflexivity.
Qed.

(** A step that is given enough credits resumes an [OnHold] queue, with or
    without a decision. *)
Lemma step_on_hold_affordable queueType decision totalWeight totalCost :
  qd_status (getQueueData productionApi queueType) = OnHold ->
  totalCost <= pd_credits playerData ->
  In (ResumeProduction (qd_type (getQueueData productionApi queueType)))
     (step queueType decision totalWeight totalCost).
Proof.
  intros Hst Hle. rewrite step_on_hold by exact Hst.
  apply Qgeb_ge in Hle. rewrite Hle. right. left. reflexivity.
Qed.

(** C3. On an [Active] queue whose front item is not the winner's item, the
    step cancels the front item exactly when the winner's score is strictly
    more than twice the score of the front item, that score being computed
    by [getPriorityForBuildingOption] on this tick's game, player and threat;
    when the winner's score is at most twice that score the step does nothing
    at all, whatever the credits and the totals. *)
Theorem updateBuildQueue_cancel_iff_twice queueType d item rest totalWeight totalCost :
  qd_status (getQueueData productionApi queueType) = Active ->
  qd_items (getQueueData productionApi queueType) = item :: rest ->
  sameRules (unit d) (qi_rules item) = false ->
  (existsb isCancel (step queueType (Some d) totalWeight totalCost) = true
     <-> score (qi_rules item) * 2 < priority d) /\
  (score (qi_rules item) * 2 < priority d ->
     In (UnqueueFromProduction (qd_type (getQueueData productionApi queueType))
           (tr_name (qi_rules item)) (tr_type (qi_rules item)) 1)
        (step queueType (Some d) totalWeight totalCost)) /\
  (priority d <= 2 * score (qi_rules item) ->
     step queueType (Some d) totalWeight totalCost = []).
Proof.
  intros Hst Hit Hne. rewrite (step_active_changed _ _ _ _ _ _ Hst Hit Hne).
  destruct (Qgtb (priority d) (score (qi_rules item) * 2)) eqn:E.
  - apply Qgtb_gt in E. split; [split; [intros _; exact E | reflexivity]|].
    split; [intros _; right; left; reflexivity|]. intros Hle. lra.
  - apply Qgtb_le in E. split; [split; [discriminate | intros Hlt; lra]|].
    split; [intros Hlt; lra | reflexivity].
Qed.

(** C6. On an [Active] queue whose front item is the winner's item, the step
    pauses the queue exactly when the total cost strictly exceeds the
    player's credits and the winner's score is strictly below a quarter of
    the total weight. *)
Theorem updateBuildQueue_pause_iff queueType d item rest totalWeight totalCost :
  qd_status (getQueueData productionApi queueType) = Active ->
  qd_items (getQueueData productionApi queueType) = item :: rest ->
  sameRules (unit d) (qi_rules item) = true ->
  (existsb isPause (step queueType (Some d) totalWeight totalCost) = true
     <-> pd_credits playerData < totalCost /\ priority d < totalWeight * (1 # 4)) /\
  (pd_credits playerData < totalCost /\ priority d < totalWeight * (1 # 4) ->
     In (PauseProduction (qd_type (getQueueData productionApi queueType)))
        (step queueType (Some d) totalWeight totalCost)).
Proof.
  intros Hst Hit Heq. rewrite (step_active_same _ _ _ _ _ _ Hst Hit Heq).
  destruct (Qgtb totalCost (pd_credits playerData)) eqn:E1;
    destruct (Qltb (priority d) (totalWeight * (1 # 4))) eqn:E2; cbn [andb]; qprop.
  - split; [split; [intros _; split; assumption | reflexivity]|].
    intros _. right. left. reflexivity.
  - split; [split; [discriminate | intros [_ H]; lra] | intros [_ H]; lra].
  - split; [split; [discriminate | intros [H _]; lra] | intros [H _]; lra].
  - split; [split; [discriminate | intros [H _]; lra] | intros [H _]; lra].
Qed.

(** Every step issues at most one command. *)
Lemma step_at_most_one_command queueType decision totalWeight totalCost :
  (length (commands (step queueType decision totalWeight totalCost)) <= 1)%nat.
Proof.
  unfold updateBuildQueue.
  repeat match goal with
    | |- context [if ?b then _ else _] => destruct b
    | |- context [match ?x with _ => _ end] => destruct x
    end;
  cbn; lia.
Qed.

End StepFacts.

(** ** The arbiter *)


Lemma fold_left_Qplus l a : fold_left Qplus l a == a + sumQ l.
Proof.
  revert a. induction l as [|x l IH]; intros a; simpl.
  - lra.
  - rewrite IH. lra.
Qed.

Lemma reduceSum_sumQ l : reduceSum l == sumQ l.
Proof. unfold reduceSum. rewrite fold_left_Qplus. lra. Qed.

Lemma filter_by_key_NoDup {A K} `{EqDecision K} (f : A -> K) (k : K) (l : list A) :
  NoDup (map f l) ->
  (length (List.filter (fun x => bool_decide (f x = k)) l) <= 1)%nat.
Proof.
  induction l as [|x l IH]; simpl; [lia|].
  intros Hnd. apply NoDup_cons in Hnd as [Hx Hnd].
  destruct (bool_decide (f x = k)) eqn:E; [|auto].
  apply bool_decide_eq_true in E. subst k.
  assert (Hnil : List.filter (fun y => bool_decide (f y = f x)) l = []).
  { clear IH Hnd. induction l as [|y l IHl]; [reflexivity|]. simpl.
    destruct (bool_decide (f y = f x)) eqn:E.
    - apply bool_decide_eq_true in E. exfalso. apply Hx. rewrite <- E. left.
    - apply IHl. intros Hin. apply Hx. right. exact Hin. }
  simpl. rewrite Hnil. simpl. lia.
Qed.

Section TickFacts.
Variable BUILDING_NAME_TO_RULES : gmap string AiBuildingRules.
Variable DEFAULT_BUILDING_PRIORITY : Q.
Variable getDefaultPlacementLocation :
  GameApi -> PlayerData -> option Vector2 -> TechnoRules ->
  option bool -> option Q -> option Location.
Variables (game : GameApi) (productionApi : ProductionApi)
          (playerData : PlayerData) (threatCache : option GlobalThreat).

#[local] Abbreviation theDecisions :=
  (decisions BUILDING_NAME_TO_RULES DEFAULT_BUILDING_PRIORITY
     game productionApi playerData threatCache).
#[local] Abbreviation theCalls :=
  (stepCalls BUILDING_NAME_TO_RULES DEFAULT_BUILDING_PRIORITY
     game productionApi playerData threatCache).
#[local] Abbreviation theWinnerOf :=
  (winnerOf BUILDING_NAME_TO_RULES DEFAULT_BUILDING_PRIORITY
     game productionApi playerData threatCache).
#[local] Abbreviation theWinners :=
  (winners BUILDING_NAME_TO_RULES DEFAULT_BUILDING_PRIORITY
     game productionApi playerData threatCache).
#[local] Abbreviation theQueuesWithWinner :=
  (queuesWithWinner BUILDING_NAME_TO_RULES DEFAULT_BUILDING_PRIORITY
     game productionApi playerData threatCache).
#[local] Abbreviation theCommandsFor :=
  (commandsFor BUILDING_NAME_TO_RULES DEFAULT_BUILDING_PRIORITY
     getDefaultPlacementLocation game productionApi playerData threatCache).
#[local] Abbreviation theStep :=
  (runStep BUILDING_NAME_TO_RULES DEFAULT_BUILDING_PRIORITY getDefaultPlacementLocation
     game productionApi playerData threatCache).


Lemma decisions_unfold :
  theDecisions =
  filter (fun d => is_Some (decision d))
         (map (fun q => {| queue := q; decision := theWinnerOf q |}) queues).
Proof.
  unfold decisions, selections. rewrite map_map. reflexivity.
Qed.

Lemma decisions_present : Forall (fun d => is_Some (decision d)) theDecisions.
Proof.
  apply Forall_forall. intros d Hd. unfold decisions in Hd.
  apply list_elem_of_filter in Hd. tauto.
Qed.

Lemma filtered_decisions (qs : list QueueType) :
  let ds := filter (fun d => is_Some (decision d))
              (map (fun q => {| queue := q; decision := theWinnerOf q |}) qs) in
  map queue ds = filter (fun q => is_Some (theWinnerOf q)) qs /\
  map decision ds = map Some (omap theWinnerOf qs).
Proof.
  induction qs as [|q qs [IH1 IH2]]; [split; reflexivity|].
  cbn [map omap list_omap]. rewrite !filter_cons. cbn [decision queue].
  destruct (theWinnerOf q) as [w|] eqn:E.
  - rewrite !decide_True by (eexists; reflexivity).
    cbn [map]. cbn zeta in IH1, IH2. rewrite IH1, IH2. cbn [decision queue].
    split; reflexivity.
  - rewrite !decide_False by (intros [? [=]]). split; assumption.
Qed.

Lemma stepCalls_queues : map call_queue theCalls = theQueuesWithWinner.
Proof.
  unfold stepCalls. rewrite map_map. cbn [call_queue].
  rewrite decisions_unfold. apply filtered_decisions.
Qed.

Lemma stepCalls_decisions : map call_decision theCalls = map Some theWinners.
Proof.
  unfold stepCalls. rewrite map_map. cbn [call_decision].
  rewrite decisions_unfold. apply filtered_decisions.
Qed.

Lemma stepCalls_NoDup : NoDup (map call_queue theCalls).
Proof.
  rewrite stepCalls_queues. apply NoDup_filter.
  apply (bool_decide_unpack _). vm_compute. exact I.
Qed.

Lemma from_option_map {A} (f : A -> Q) (ds : list QueueDecision) (ws : list A)
    (g : QueueDecision -> option A) :
  map g ds = map Some ws ->
  map (fun d => from_option f 0 (g d)) ds = map f ws.
Proof.
  revert ws. induction ds as [|d ds IH]; intros [|w ws]; simpl; try discriminate.
  - reflexivity.
  - intros [= -> Heq]. simpl. f_equal. apply IH. exact Heq.
Qed.

(** With [debug = false] the selector logs nothing, so the trace of a tick is
    the trace of its step calls, in order. *)
Lemma selection_is_silent (options : list TechnoRules) :
  snd (getBestOptionForBuilding BUILDING_NAME_TO_RULES DEFAULT_BUILDING_PRIORITY
         game options threatCache playerData false) = [].
Proof.
  unfold getBestOptionForBuilding. cbn [snd]. rewrite andb_false_r. reflexivity.
Qed.

Lemma onAiUpdate_runs_calls :
  onAiUpdate BUILDING_NAME_TO_RULES DEFAULT_BUILDING_PRIORITY getDefaultPlacementLocation
    game productionApi playerData threatCache
  = concat (map theStep theCalls).
Proof.
  unfold onAiUpdate, selections. rewrite map_map. cbn [snd].
  assert (Hsilent : forall qs : list QueueType,
            concat (map (fun q =>
              snd (getBestOptionForBuilding BUILDING_NAME_TO_RULES
                     DEFAULT_BUILDING_PRIORITY game
                     (getAvailableObjects productionApi q) threatCache playerData false))
              qs) = []).
  { induction qs as [|q qs IH]; [reflexivity|].
    cbn [map concat]. rewrite selection_is_silent, IH. reflexivity. }
  rewrite Hsilent. reflexivity.
Qed.

Lemma decisions_winners : map decision theDecisions = map Some theWinners.
Proof. rewrite decisions_unfold. apply filtered_decisions. Qed.

Lemma totalWeight_sum :
  totalWeightAcrossQueues BUILDING_NAME_TO_RULES DEFAULT_BUILDING_PRIORITY
    game productionApi playerData threatCache
  == sumQ (map priority theWinners).
Proof.
  unfold totalWeightAcrossQueues. rewrite reduceSum_sumQ.
  rewrite (from_option_map priority _ theWinners decision decisions_winners). reflexivity.
Qed.

Lemma totalCost_sum :
  totalCostAcrossQueues BUILDING_NAME_TO_RULES DEFAULT_BUILDING_PRIORITY
    game productionApi playerData threatCache
  == sumQ (map (fun w => tr_cost (unit w)) theWinners).
Proof.
  unfold totalCostAcrossQueues. rewrite reduceSum_sumQ.
  rewrite (from_option_map (fun w => tr_cost (unit w)) _ theWinners decision decisions_winners).
  reflexivity.
Qed.

(** C5. The tick is a function of this tick's inputs alone (the controller
    keeps no field between calls).  Its trace is the trace of its step calls;
    the decisions handed to the steps are exactly the winners selected on
    this tick, and every step call receives the same two totals: the sum of
    the scores of all those winners and the sum of their costs. *)
Theorem totals_are_sums_over_winners :
  onAiUpdate BUILDING_NAME_TO_RULES DEFAULT_BUILDING_PRIORITY getDefaultPlacementLocation
    game productionApi playerData threatCache
  = concat (map theStep theCalls) /\
  map call_decision theCalls = map Some theWinners /\
  Forall (fun c =>
            call_totalWeight c == sumQ (map priority theWinners) /\
            call_totalCost c == sumQ (map (fun w => tr_cost (unit w)) theWinners))
         theCalls.
Proof.
  split; [apply onAiUpdate_runs_calls|].
  split; [apply stepCalls_decisions|].
  apply List.Forall_forall. intros c Hc. unfold stepCalls in Hc.
  apply in_map_iff in Hc as (d & <- & _). cbn [call_totalWeight call_totalCost].
  split; [apply totalWeight_sum | apply totalCost_sum].
Qed.

(** C10. Whatever the queue status, the decision, the totals and the
    credits, one step issues at most one command; and on a tick the steps
    run for one queue issue at most one command in all. *)
Theorem at_most_one_command_per_queue :
  (forall queueType decision totalWeight totalCost,
     (length (commands
        (updateBuildQueue BUILDING_NAME_TO_RULES DEFAULT_BUILDING_PRIORITY
           getDefaultPlacementLocation game productionApi playerData threatCache
           queueType decision totalWeight totalCost)) <= 1)%nat) /\
  (forall queueType, (length (theCommandsFor queueType) <= 1)%nat).
Proof.
  split; [intros; apply step_at_most_one_command|].
  intros q. unfold theCommandsFor.
  pose proof (filter_by_key_NoDup call_queue q theCalls stepCalls_NoDup) as Hlen.
  destruct (List.filter _ theCalls) as [|c [|c' l]]; simpl in Hlen; [simpl; lia | | lia].
  cbn [map concat]. rewrite app_nil_r. apply step_at_most_one_command.
Qed.

End TickFacts.

(** ** The defensive-structure strategy *)

Lemma Qmax_one_pos (d : Q) : 0 < Qmax 1 d.
Proof.
  apply Qlt_le_trans with 1; [reflexivity | apply Q.le_max_l].
Qed.

Lemma ofNat_le (m n : nat) : (m <= n)%nat -> ofNat m <= ofNat n.
Proof. intros H. unfold ofNat. rewrite <- Zle_Qle. lia. Qed.

Lemma ofNat_lt (m n : nat) : (m < n)%nat -> ofNat m < ofNat n.
Proof. intros H. unfold ofNat. rewrite <- Zlt_Qlt. lia. Qed.

Section StrategyFacts.
Variable numBuildingsOwnedOfType : GameApi -> PlayerData -> TechnoRules -> nat.
Variables basePriority baseAmount groundStrength : Q.
Variables (game : GameApi) (playerData : PlayerData) (technoRules : TechnoRules).

#[local] Abbreviation priorityWith threatCache :=
  (AntiGround_getPriority numBuildingsOwnedOfType basePriority baseAmount groundStrength
     game playerData technoRules threatCache).
#[local] Abbreviation numOwned :=
  (ofNat (numBuildingsOwnedOfType game playerData technoRules)).

Lemma AntiGround_threat_above (threat : GlobalThreat) :
  (totalAvailableAntiGroundFirepower threat + totalDefensivePower threat + groundStrength)
    * (11 # 10) < totalOffensiveLandThreat threat ->
  priorityWith (Some threat) ==
    basePriority * totalOffensiveLandThreat threat
    / Qmax 1 (totalAvailableAntiGroundFirepower threat + totalDefensivePower threat
              + groundStrength).
Proof.
  intros H. unfold AntiGround_getPriority.
  apply Qgtb_gt in H. rewrite H. unfold Qdiv. ring.
Qed.

Lemma AntiGround_threat_below (threat : GlobalThreat) :
  totalOffensiveLandThreat threat <=
    (totalAvailableAntiGroundFirepower threat + totalDefensivePower threat + groundStrength)
    * (11 # 10) ->
  priorityWith (Some threat) == 0.
Proof.
  intros H. unfold AntiGround_getPriority.
  apply Qgtb_le in H. rewrite H. reflexivity.
Qed.

Lemma AntiGround_threat_nonneg (threat : GlobalThreat) :
  0 <= basePriority -> 0 <= totalOffensiveLandThreat threat ->
  0 <= priorityWith (Some threat).
Proof.
  intros Hb Ho. unfold AntiGround_getPriority.
  destruct (Qgtb _ _); [|apply Qle_refl].
  apply Qmult_le_0_compat; [exact Hb|].
  apply Qle_shift_div_l; [apply Qmax_one_pos|]. lra.
Qed.

Lemma strengthPerCost_nonneg :
  0 <= groundStrength -> 0 < tr_cost technoRules ->
  0 <= groundStrength / tr_cost technoRules * 1000.
Proof.
  intros Hg Hc. apply Qmult_le_0_compat; [|discriminate].
  apply Qle_shift_div_l; [exact Hc | lra].
Qed.

Lemma strengthPerCost_pos :
  0 < groundStrength -> 0 < tr_cost technoRules ->
  0 < groundStrength / tr_cost technoRules * 1000.
Proof.
  intros Hg Hc. apply Qmult_lt_0_compat; [|reflexivity].
  apply Qlt_shift_div_l; [exact Hc | lra].
Qed.

Lemma AntiGround_no_threat_nonneg :
  0 <= basePriority -> 0 < baseAmount -> 0 <= groundStrength -> 0 < tr_cost technoRules ->
  numOwned <= baseAmount ->
  0 <= priorityWith None.
Proof.
  intros Hb Ha Hg Hc Hn. unfold AntiGround_getPriority.
  apply Qmult_le_0_compat; [|apply strengthPerCost_nonneg; assumption].
  apply Qmult_le_0_compat; [exact Hb|].
  assert (numOwned / baseAmount <= 1) by (apply Qle_shift_div_r; [exact Ha | lra]).
  lra.
Qed.

Lemma AntiGround_no_threat_negative :
  0 < basePriority -> 0 < baseAmount -> 0 < groundStrength -> 0 < tr_cost technoRules ->
  baseAmount < numOwned ->
  priorityWith None < 0.
Proof.
  intros Hb Ha Hg Hc Hn. unfold AntiGround_getPriority.
  assert (Hx : 1 < numOwned / baseAmount) by (apply Qlt_shift_div_l; [exact Ha | lra]).
  pose proof (strengthPerCost_pos Hg Hc) as Hy.
  set (x := numOwned / baseAmount) in *.
  set (y := groundStrength / tr_cost technoRules * 1000) in *.
  assert (Hpos : 0 < basePriority * (x - 1) * y).
  { apply Qmult_lt_0_compat; [|exact Hy].
    apply Qmult_lt_0_compat; [exact Hb | lra]. }
  clearbody x y.
  assert (Heq : basePriority * (1 - x) * y == - (basePriority * (x - 1) * y)) by ring.
  rewrite Heq. lra.
Qed.

End StrategyFacts.

(** C8. With a threat snapshot, and [denominator] the sum of the own
    anti-ground firepower, the own defensive power and the strength of the
    structure: the score is [basePriority * enemy / max(1, denominator)] when
    the enemy's offensive strength exceeds [denominator * 1.1], and 0
    otherwise.  With firepower 100, defensive power 50 and strength 20 the
    score is [basePriority * 200/170] against an enemy strength of 200, and 0
    against 180. *)
Theorem AntiGround_getPriority_threat
    (numBuildingsOwnedOfType : GameApi -> PlayerData -> TechnoRules -> nat)
    (basePriority baseAmount : Q)
    (game : GameApi) (playerData : PlayerData) (technoRules : TechnoRules) :
  (forall groundStrength threat,
     let denominator :=
       totalAvailableAntiGroundFirepower threat + totalDefensivePower threat
       + groundStrength in
     (denominator * (11 # 10) < totalOffensiveLandThreat threat ->
      (AntiGround_getPriority numBuildingsOwnedOfType basePriority baseAmount groundStrength
         game playerData technoRules (Some threat)
       == basePriority * totalOffensiveLandThreat threat / Qmax 1 denominator)) /\
     (totalOffensiveLandThreat threat <= denominator * (11 # 10) ->
      (AntiGround_getPriority numBuildingsOwnedOfType basePriority baseAmount groundStrength
         game playerData technoRules (Some threat)
       == 0))) /\
  (AntiGround_getPriority numBuildingsOwnedOfType basePriority baseAmount 20
     game playerData technoRules
     (Some {| totalOffensiveLandThreat := 200;
              totalAvailableAntiGroundFirepower := 100;
              totalDefensivePower := 50 |})
   == basePriority * 200 / 170) /\
  (AntiGround_getPriority numBuildingsOwnedOfType basePriority baseAmount 20
     game playerData technoRules
     (Some {| totalOffensiveLandThreat := 180;
              totalAvailableAntiGroundFirepower := 100;
              totalDefensivePower := 50 |})
   == 0).
Proof.
  split; [|split].
  - intros groundStrength threat denominator. split.
    + apply AntiGround_threat_above.
    + apply AntiGround_threat_below.
  - rewrite AntiGround_threat_above by reflexivity. reflexivity.
  - apply AntiGround_threat_below. discriminate.
Qed.

(** C7, amended. With a non-negative base priority the score under a threat
    snapshot (whose offensive strength is non-negative) is never negative.
    Without a snapshot, for a positive target count and item cost, the score
    is non-negative as long as the owned count does not exceed the target
    count, and it is negative once the owned count exceeds it. *)
Theorem AntiGround_getPriority_sign
    (numBuildingsOwnedOfType : GameApi -> PlayerData -> TechnoRules -> nat)
    (basePriority baseAmount groundStrength : Q)
    (game : GameApi) (playerData : PlayerData) (technoRules : TechnoRules) :
  0 <= basePriority -> 0 < baseAmount -> 0 <= groundStrength ->
  0 < tr_cost technoRules ->
  (forall threat, 0 <= totalOffensiveLandThreat threat ->
     0 <= AntiGround_getPriority numBuildingsOwnedOfType basePriority baseAmount
            groundStrength game playerData technoRules (Some threat)) /\
  (ofNat (numBuildingsOwnedOfType game playerData technoRules) <= baseAmount ->
     0 <= AntiGround_getPriority numBuildingsOwnedOfType basePriority baseAmount
            groundStrength game playerData technoRules None) /\
  (0 < basePriority -> 0 < groundStrength ->
   baseAmount < ofNat (numBuildingsOwnedOfType game playerData technoRules) ->
     AntiGround_getPriority numBuildingsOwnedOfType basePriority baseAmount
       groundStrength game playerData technoRules None < 0).
Proof.
  intros Hb Ha Hg Hc. split; [|split].
  - intros threat Ho. apply AntiGround_threat_nonneg; assumption.
  - intros Hn. apply AntiGround_no_threat_nonneg; assumption.
  - intros Hb' Hg' Hn. apply AntiGround_no_threat_negative; assumption.
Qed.

(** ** The fallback priority *)


(** C9. For an option without a registered strategy the priority is
    [DEFAULT_BUILDING_PRIORITY] minus the number of units of that kind the
    player owns; it strictly decreases (hence never increases) when that
    number grows; with a default of 50 it is 47 for three owned units and at
    most 0 from fifty owned units on. *)
Theorem fallback_priority_decays
    (BUILDING_NAME_TO_RULES : gmap string AiBuildingRules)
    (DEFAULT_BUILDING_PRIORITY : Q)
    (opt : TechnoRules) (game : GameApi) (playerStatus : PlayerData)
    (threatCache : option GlobalThreat) :
  BUILDING_NAME_TO_RULES !! tr_name opt = None ->
  getPriorityForBuildingOption BUILDING_NAME_TO_RULES DEFAULT_BUILDING_PRIORITY
    opt game playerStatus threatCache
  = DEFAULT_BUILDING_PRIORITY - ofNat (ownedCount game playerStatus opt) /\
  (forall game' : GameApi,
     (ownedCount game playerStatus opt < ownedCount game' playerStatus opt)%nat ->
     getPriorityForBuildingOption BUILDING_NAME_TO_RULES DEFAULT_BUILDING_PRIORITY
       opt game' playerStatus threatCache
     < getPriorityForBuildingOption BUILDING_NAME_TO_RULES DEFAULT_BUILDING_PRIORITY
         opt game playerStatus threatCache) /\
  (forall game' : GameApi,
     (ownedCount game playerStatus opt <= ownedCount game' playerStatus opt)%nat ->
     getPriorityForBuildingOption BUILDING_NAME_TO_RULES DEFAULT_BUILDING_PRIORITY
       opt game' playerStatus threatCache
     <= getPriorityForBuildingOption BUILDING_NAME_TO_RULES DEFAULT_BUILDING_PRIORITY
          opt game playerStatus threatCache) /\
  (DEFAULT_BUILDING_PRIORITY == 50 -> ownedCount game playerStatus opt = 3%nat ->
     getPriorityForBuildingOption BUILDING_NAME_TO_RULES DEFAULT_BUILDING_PRIORITY
       opt game playerStatus threatCache == 47) /\
  (DEFAULT_BUILDING_PRIORITY == 50 -> (50 <= ownedCount game playerStatus opt)%nat ->
     getPriorityForBuildingOption BUILDING_NAME_TO_RULES DEFAULT_BUILDING_PRIORITY
       opt game playerStatus threatCache <= 0).
Proof.
  intros Hmiss. unfold getPriorityForBuildingOption. rewrite Hmiss.
  fold (ownedCount game playerStatus opt).
  split; [reflexivity|]. split; [|split; [|split]].
  - intros game' Hlt. fold (ownedCount game' playerStatus opt).
    apply ofNat_lt in Hlt. lra.
  - intros game' Hle. fold (ownedCount game' playerStatus opt).
    apply ofNat_le in Hle. lra.
  - intros Hd Hn. rewrite Hn, Hd. reflexivity.
  - intros Hd Hn. apply ofNat_le in Hn. rewrite Hd.
    change (ofNat 50) with 50 in Hn. lra.
Qed.


Module ScenarioFacts.
Import Scenario.


(** Among equal best scores the option listed last wins; the option with a
    lower score loses wherever it is listed. *)
Example selector_prefers_last_of_equals :
  fst (getBestOptionForBuilding table 50 (world (owns "bot" 3 rifleman))
         [tank; rifleman; refinery; harvester] None me false)
  = Some (harvesterAt 50).
Proof. vm_compute. reflexivity. Qed.

Lemma getBestOptionForBuilding_last_maximum_witness :
  isWinner table 50 (world (owns "bot" 3 rifleman)) me None
    [tank; rifleman; refinery; harvester] (harvesterAt 50).
Proof.
  apply (getBestOptionForBuilding_last_maximum table 50
           (world (owns "bot" 3 rifleman)) None me
           [tank; rifleman; refinery; harvester] false).
  vm_compute. reflexivity.
Defined.

Lemma updateBuildQueue_cancel_iff_twice_witness :
  qd_status (getQueueData busyProduction Vehicles) = Active /\
  sameRules tank harvester = false /\
  getPriorityForBuildingOption table 50 harvester (world (owns "bot" 2 harvester)) me None
    * 2 < 100 /\
  In (UnqueueFromProduction Vehicles "CMIN" VehicleObject 1)
     (updateBuildQueue table 50 placeAtIdeal (world (owns "bot" 2 harvester))
        busyProduction me None Vehicles (Some (tankAt 100)) 100 700).
Proof.
  split; [reflexivity|]. split; [reflexivity|]. split; [reflexivity|].
  apply (updateBuildQueue_cancel_iff_twice table 50 placeAtIdeal
           (world (owns "bot" 2 harvester)) busyProduction me None Vehicles
           (tankAt 100) {| qi_rules := harvester; qi_quantity := 1 |} [] 100 700);
    reflexivity.
Defined.

Lemma updateBuildQueue_pause_iff_witness :
  qd_status (getQueueData busyProduction Vehicles) = Active /\
  sameRules harvester harvester = true /\
  In (PauseProduction Vehicles)
     (updateBuildQueue table 50 placeAtIdeal (world []) busyProduction me None
        Vehicles (Some (harvesterAt 50)) 400 1400).
Proof.
  split; [reflexivity|]. split; [reflexivity|].
  apply (updateBuildQueue_pause_iff table 50 placeAtIdeal (world []) busyProduction
           me None Vehicles (harvesterAt 50)
           {| qi_rules := harvester; qi_quantity := 1 |} [] 400 1400);
    first [reflexivity | split; reflexivity].
Defined.

Lemma AntiGround_getPriority_threat_witness :
  getPriority pillboxRules (world []) me pillbox
    (Some {| totalOffensiveLandThreat := 200;
             totalAvailableAntiGroundFirepower := 100;
             totalDefensivePower := 65 |})
  == 10 * 200 / 170.
Proof.
  apply (proj1 (proj1 (AntiGround_getPriority_threat countOwned 10 2 (world []) me pillbox)
                  5 {| totalOffensiveLandThreat := 200;
                       totalAvailableAntiGroundFirepower := 100;
                       totalDefensivePower := 65 |})).
  reflexivity.
Defined.

(** C7 as stated fails: with two pillboxes wanted and three owned, and no
    threat snapshot, the score is -50. *)
Lemma AntiGround_getPriority_negative :
  ~ 0 <= getPriority pillboxRules (world (owns "bot" 3 pillbox)) me pillbox None.
Proof. apply Qlt_not_le. reflexivity. Qed.

Lemma AntiGround_getPriority_sign_witness :
  0 <= 10 /\ 0 < 2 /\ 0 <= 5 /\ 0 < tr_cost pillbox /\
  getPriority pillboxRules (world (owns "bot" 3 pillbox)) me pillbox None < 0.
Proof.
  split; [discriminate|]. split; [reflexivity|]. split; [discriminate|].
  split; [reflexivity|].
  apply (AntiGround_getPriority_sign countOwned 10 2 5
           (world (owns "bot" 3 pillbox)) me pillbox);
    reflexivity || discriminate.
Defined.

Lemma fallback_priority_decays_witness :
  table !! tr_name rifleman = None /\
  getPriorityForBuildingOption table 50 rifleman (world (owns "bot" 3 rifleman)) me None
  == 47.
Proof.
  split; [reflexivity|].
  apply (fallback_priority_decays table 50 rifleman
           (world (owns "bot" 3 rifleman)) me None);
    reflexivity.
Defined.

(** The tick of [Scenario.production], with 1000 credits and a calm threat:
    the pillbox scores 0, so the structure queue has no winner; the tank is
    the only winner. *)
Lemma scenario_tick :
  winnerOf table 50 (world []) production me (Some calmThreat) Structures = None /\
  stepCalls table 50 (world []) production me (Some calmThreat)
  = [ {| call_queue := Vehicles; call_decision := Some (tankAt 50);
         call_totalWeight := 50; call_totalCost := 700 |} ] /\
  onAiUpdate table 50 placeAtIdeal (world []) production me (Some calmThreat)
  = [ Log (MsgDecision "Vehicles" "MTNK");
      QueueForProduction Vehicles "MTNK" VehicleObject 1 ].
Proof. vm_compute. repeat split. Qed.

(** C1 fails on the code: [onAiUpdate] runs the step only for the queues that
    the filter on present decisions keeps.  Here the structure queue is one of
    the six queues and has no winner, and no step is run for it. *)
Theorem onAiUpdate_skips_queue_without_winner :
  In Structures queues /\
  winnerOf table 50 (world []) production me (Some calmThreat) Structures = None /\
  map call_queue (stepCalls table 50 (world []) production me (Some calmThreat))
  = [Vehicles] /\
  ~ In Structures
      (map call_queue (stepCalls table 50 (world []) production me (Some calmThreat))).
Proof.
  split; [left; reflexivity|]. split; [vm_compute; reflexivity|].
  split; [vm_compute; reflexivity|].
  vm_compute. intros [H|[]]. discriminate H.
Qed.

(** C2 fails on the code: the structure queue is on hold and the credits (1000)
    cover the total cost (700), yet the tick issues no resume; the step itself
    would resume the queue, with the same totals and no decision, had it been
    run. *)
Theorem onAiUpdate_leaves_affordable_queue_on_hold :
  qd_status (getQueueData production Structures) = OnHold /\
  totalCostAcrossQueues table 50 (world []) production me (Some calmThreat)
    <= pd_credits me /\
  existsb isResume
    (onAiUpdate table 50 placeAtIdeal (world []) production me (Some calmThreat))
  = false /\
  updateBuildQueue table 50 placeAtIdeal (world []) production me (Some calmThreat)
    Structures None
    (totalWeightAcrossQueues table 50 (world []) production me (Some calmThreat))
    (totalCostAcrossQueues table 50 (world []) production me (Some calmThreat))
  = [Log (MsgResumeCredits "Structures"); ResumeProduction Structures].
Proof.
  split; [reflexivity|]. split; [vm_compute; discriminate|].
  split; vm_compute; reflexivity.
Qed.

End ScenarioFacts.

(** * Further properties *)

(** ** Queue names *)

(** X1. The names of the six queues are pairwise different, and none of them
    is the default name ["Unknown"]. *)
Theorem queueTypeToName_injective (a b : QueueType) :
  (queueTypeToName a = queueTypeToName b -> a = b) /\
  queueTypeToName a <> "Unknown".
Proof.
  split; [|destruct a; discriminate].
  destruct a, b; simpl; intros H; first [reflexivity | discriminate H].
Qed.

(** ** More on the step *)

Section StepExtras.
Variable BUILDING_NAME_TO_RULES : gmap string AiBuildingRules.
Variable DEFAULT_BUILDING_PRIORITY : Q.
Variable getDefaultPlacementLocation :
  GameApi -> PlayerData -> option Vector2 -> TechnoRules ->
  option bool -> option Q -> option Location.
Variables (game : GameApi) (productionApi : ProductionApi)
          (playerData : PlayerData) (threatCache : option GlobalThreat).

#[local] Abbreviation score o :=
  (getPriorityForBuildingOption BUILDING_NAME_TO_RULES DEFAULT_BUILDING_PRIORITY
     o game playerData threatCache).
#[local] Abbreviation step queueType decision totalWeight totalCost :=
  (updateBuildQueue BUILDING_NAME_TO_RULES DEFAULT_BUILDING_PRIORITY
     getDefaultPlacementLocation game productionApi playerData threatCache
     queueType decision totalWeight totalCost).
#[local] Abbreviation guard queueType decision totalWeight totalCost e :=
  (commandGuard BUILDING_NAME_TO_RULES DEFAULT_BUILDING_PRIORITY
     getDefaultPlacementLocation game productionApi playerData threatCache
     queueType decision totalWeight totalCost e).
#[local] Abbreviation queueDataOf queueType := (getQueueData productionApi queueType).

Lemma step_idle queueType decision totalWeight totalCost :
  qd_status (queueDataOf queueType) = Idle ->
  step queueType decision totalWeight totalCost =
    match decision with
    | Some d =>
        [Log (MsgDecision (queueTypeToName queueType) (tr_name (unit d)));
         QueueForProduction queueType (tr_name (unit d)) (tr_type (unit d)) 1]
    | None => []
    end.
Proof. intros Hst. unfold updateBuildQueue. rewrite Hst. reflexivity. Qed.

Lemma step_ready queueType decision totalWeight totalCost item rest :
  qd_status (queueDataOf queueType) = Ready ->
  qd_items (queueDataOf queueType) = item :: rest ->
  step queueType decision totalWeight totalCost =
    if bool_decide (queueType = Structures) || bool_decide (queueType = Armory) then
      match getBestLocationForStructure BUILDING_NAME_TO_RULES getDefaultPlacementLocation
              game playerData (qi_rules item) with
      | Some location =>
          [PlaceBuilding (tr_name (qi_rules item)) (rx location) (ry location)]
      | None => []
      end
    else [].
Proof.
  intros Hst Hit. unfold updateBuildQueue. rewrite Hst, Hit. reflexivity.
Qed.

(** Every event of a step's trace satisfies [commandGuard]. *)
Lemma step_guarded queueType decision totalWeight totalCost e :
  In e (step queueType decision totalWeight totalCost) ->
  guard queueType decision totalWeight totalCost e.
Proof.
  unfold commandGuard.
  destruct (qd_status (queueDataOf queueType)) eqn:Hst.
  - rewrite step_idle by exact Hst.
    destruct decision as [d|]; [|intros []].
    intros [<-|[<-|[]]]; [exact I|]. repeat split. exists d. repeat split.
  - destruct (qd_items (queueDataOf queueType)) as [|item rest] eqn:Hit;
      [unfold updateBuildQueue; rewrite Hst, Hit; intros []|].
    destruct decision as [d|];
      [|unfold updateBuildQueue; rewrite Hst, Hit; intros []].
    destruct (sameRules (unit d) (qi_rules item)) eqn:Hsame.
    + rewrite (step_active_same _ _ _ _ _ _ _ _ _ _ _ _ _ Hst Hit Hsame).
      destruct (Qgtb totalCost (pd_credits playerData)) eqn:E1;
        [destruct (Qltb (priority d) (totalWeight * (1 # 4))) eqn:E2|];
        cbn [andb]; [|intros []|intros []].
      qprop. intros [<-|[<-|[]]]; [exact I|]. repeat split.
      exists d, item, rest. repeat split; assumption.
    + rewrite (step_active_changed _ _ _ _ _ _ _ _ _ _ _ _ _ Hst Hit Hsame).
      destruct (Qgtb (priority d) (score (qi_rules item) * 2)) eqn:E; [|intros []].
      qprop. intros [<-|[<-|[]]]; [exact I|]. repeat split.
      exists d, item, rest. repeat split; assumption.
  - rewrite step_on_hold by exact Hst.
    destruct (Qgeb (pd_credits playerData) totalCost) eqn:E1.
    + qprop. intros [<-|[<-|[]]]; [exact I|]. repeat split. left. exact E1.
    + destruct decision as [d|]; [|intros []].
      destruct (Qgeb (priority d) (totalWeight * (1 # 4))) eqn:E2; [|intros []].
      qprop. intros [<-|[<-|[]]]; [exact I|]. repeat split.
      right. exists d. split; [reflexivity | exact E2].
  - destruct (qd_items (queueDataOf queueType)) as [|item rest] eqn:Hit;
      [unfold updateBuildQueue; rewrite Hst, Hit; intros []|].
    rewrite (step_ready _ _ _ _ _ _ Hst Hit).
    destruct (bool_decide (queueType = Structures)) eqn:Es.
    + apply bool_decide_eq_true in Es. cbn [orb].
      destruct (getBestLocationForStructure _ _ _ _ _) as [[x y]|] eqn:Hloc; [|intros []].
      intros [<-|[]]. repeat split; [left; exact Es|].
      exists item, rest. repeat split. exact Hloc.
    + cbn [orb]. destruct (bool_decide (queueType = Armory)) eqn:Ea; [|intros []].
      apply bool_decide_eq_true in Ea.
      destruct (getBestLocationForStructure _ _ _ _ _) as [[x y]|] eqn:Hloc; [|intros []].
      intros [<-|[]]. repeat split; [right; exact Ea|].
      exists item, rest. repeat split. exact Hloc.
Qed.


(** Splits a step into the cases of its conditionals. *)
Ltac step_cases :=
  unfold updateBuildQueue;
  repeat match goal with
    | |- context [if ?b then _ else _] => destruct b
    | |- context [match ?x with _ => _ end] => destruct x
    end.

Lemma step_places_when_ready queueType decision totalWeight totalCost :
  existsb isPlace (step queueType decision totalWeight totalCost) = true ->
  qd_status (queueDataOf queueType) = Ready.
Proof.
  destruct (qd_status (queueDataOf queueType)) eqn:Hst; [| | |reflexivity];
    revert Hst; step_cases; cbn; congruence.
Qed.

Lemma step_resumes_when_on_hold queueType decision totalWeight totalCost :
  existsb isResume (step queueType decision totalWeight totalCost) = true ->
  qd_status (queueDataOf queueType) = OnHold.
Proof.
  destruct (qd_status (queueDataOf queueType)) eqn:Hst; [| |reflexivity|];
    revert Hst; step_cases; cbn; congruence.
Qed.

(** X2. A step places a building exactly when the queue is [Ready] with an
    item in front, the queue is the structure or the armory queue, and the
    placement search finds a location for that item; the decision, the
    totals and the credits play no part. *)
Theorem updateBuildQueue_place_iff queueType decision totalWeight totalCost :
  existsb isPlace (step queueType decision totalWeight totalCost) = true <->
  qd_status (queueDataOf queueType) = Ready /\
  (queueType = Structures \/ queueType = Armory) /\
  exists item rest location,
    qd_items (queueDataOf queueType) = item :: rest /\
    getBestLocationForStructure BUILDING_NAME_TO_RULES getDefaultPlacementLocation
      game playerData (qi_rules item) = Some location.
Proof.
  split.
  - intros H. pose proof (step_places_when_ready _ _ _ _ H) as Hst.
    split; [exact Hst|].
    destruct (qd_items (queueDataOf queueType)) as [|item rest] eqn:Hit.
    + unfold updateBuildQueue in H. rewrite Hst, Hit in H. discriminate H.
    + rewrite (step_ready _ _ _ _ _ _ Hst Hit) in H.
      destruct (getBestLocationForStructure _ _ _ _ _) as [location|] eqn:Hloc.
      * split; [|exists item, rest, location; split; [reflexivity | exact Hloc]].
        destruct (bool_decide (queueType = Structures)) eqn:Es;
          [left; apply bool_decide_eq_true in Es; exact Es|].
        destruct (bool_decide (queueType = Armory)) eqn:Ea;
          [right; apply bool_decide_eq_true in Ea; exact Ea | discriminate H].
      * destruct (_ || _); discriminate H.
  - intros (Hst & Hq & item & rest & location & Hit & Hloc).
    rewrite (step_ready _ _ _ _ _ _ Hst Hit), Hloc.
    destruct Hq as [-> | ->]; reflexivity.
Qed.

(** X3. A step resumes exactly when the queue is [OnHold] and either the
    credits cover the total cost or there is a decision whose score is at
    least a quarter of the total weight. *)
Theorem updateBuildQueue_resume_iff queueType decision totalWeight totalCost :
  existsb isResume (step queueType decision totalWeight totalCost) = true <->
  qd_status (queueDataOf queueType) = OnHold /\
  (totalCost <= pd_credits playerData \/
   exists d, decision = Some d /\ totalWeight * (1 # 4) <= priority d).
Proof.
  split.
  - intros H. pose proof (step_resumes_when_on_hold _ _ _ _ H) as Hst.
    split; [exact Hst|]. rewrite step_on_hold in H by exact Hst.
    destruct (Qgeb (pd_credits playerData) totalCost) eqn:E1; [qprop; left; exact E1|].
    destruct decision as [d|]; [|discriminate H].
    destruct (Qgeb (priority d) (totalWeight * (1 # 4))) eqn:E2; [|discriminate H].
    qprop. right. exists d. split; [reflexivity | exact E2].
  - intros (Hst & Hor). rewrite step_on_hold by exact Hst.
    destruct (Qgeb (pd_credits playerData) totalCost) eqn:E1; [reflexivity|].
    qprop. destruct Hor as [Hle | (d & -> & Hd)]; [lra|].
    apply Qgeb_ge in Hd. rewrite Hd. reflexivity.
Qed.

(** X4. The step leaves an empty trace (no command and no log line) on an
    [Idle] queue without a decision, on a [Ready] queue that is empty or is
    not the structure or armory queue, and on an [Active] queue that is empty
    or has no decision. *)
Theorem updateBuildQueue_no_op queueType decision totalWeight totalCost :
  (qd_status (queueDataOf queueType) = Idle /\ decision = None) \/
  (qd_status (queueDataOf queueType) = Ready /\
     (qd_items (queueDataOf queueType) = [] \/
      (queueType <> Structures /\ queueType <> Armory))) \/
  (qd_status (queueDataOf queueType) = Active /\
     (qd_items (queueDataOf queueType) = [] \/ decision = None)) ->
  updateBuildQueue BUILDING_NAME_TO_RULES DEFAULT_BUILDING_PRIORITY
    getDefaultPlacementLocation game productionApi playerData threatCache
    queueType decision totalWeight totalCost = [].
Proof.
  intros [[Hst ->] | [[Hst H] | [Hst H]]].
  - rewrite step_idle by exact Hst. reflexivity.
  - unfold updateBuildQueue. rewrite Hst. cbn [bool_decide decide_rel].
    destruct H as [-> | [Hs Ha]]; [reflexivity|].
    destruct (qd_items (queueDataOf queueType)); [reflexivity|].
    rewrite (bool_decide_eq_false_2 _ Hs), (bool_decide_eq_false_2 _ Ha). reflexivity.
  - unfold updateBuildQueue. rewrite Hst. cbn [bool_decide decide_rel].
    destruct H as [-> | ->]; [reflexivity|].
    destruct (qd_items (queueDataOf queueType)); reflexivity.
Qed.

End StepExtras.

(** X5. Pausing and resuming are complementary: for the same decision,
    totals and credits, the step pauses a queue that is [Active] on the
    decided item exactly when it would not resume that queue were it
    [OnHold].  So a tick with unchanged numbers neither resumes what it has
    just paused nor pauses what it has just resumed. *)
Theorem pause_resume_complementary
    (BUILDING_NAME_TO_RULES : gmap string AiBuildingRules)
    (DEFAULT_BUILDING_PRIORITY : Q)
    (getDefaultPlacementLocation :
       GameApi -> PlayerData -> option Vector2 -> TechnoRules ->
       option bool -> option Q -> option Location)
    (game : GameApi) (running held : ProductionApi)
    (playerData : PlayerData) (threatCache : option GlobalThreat)
    (queueType : QueueType) (d : TechnoRulesWithPriority)
    (item : QueueItem) (rest : list QueueItem) (totalWeight totalCost : Q) :
  qd_status (getQueueData running queueType) = Active ->
  qd_items (getQueueData running queueType) = item :: rest ->
  sameRules (unit d) (qi_rules item) = true ->
  qd_status (getQueueData held queueType) = OnHold ->
  existsb isPause
    (updateBuildQueue BUILDING_NAME_TO_RULES DEFAULT_BUILDING_PRIORITY
       getDefaultPlacementLocation game running playerData threatCache
       queueType (Some d) totalWeight totalCost)
  = negb (existsb isResume
    (updateBuildQueue BUILDING_NAME_TO_RULES DEFAULT_BUILDING_PRIORITY
       getDefaultPlacementLocation game held playerData threatCache
       queueType (Some d) totalWeight totalCost)).
Proof.
  intros Hst Hit Hsame Hheld.
  rewrite (step_active_same _ _ _ _ _ _ _ _ _ _ _ _ _ Hst Hit Hsame).
  rewrite step_on_hold by exact Hheld.
  unfold Qgtb, Qltb, Qgeb.
  destruct (Qle_bool totalCost (pd_credits playerData));
    destruct (Qle_bool (totalWeight * (1 # 4)) (priority d)); reflexivity.
Qed.

(** ** More on the tick *)

Lemma all_queues (q : QueueType) : In q queues.
Proof. destruct q; simpl; tauto. Qed.

Lemma sumQ_nonneg (l : list Q) : Forall (fun x => 0 < x) l -> 0 <= sumQ l.
Proof.
  induction 1 as [|x l Hx Hl IH]; simpl; [apply Qle_refl | lra].
Qed.

Lemma sumQ_bounds_member (l : list Q) (x : Q) :
  Forall (fun y => 0 < y) l -> In x l -> x <= sumQ l.
Proof.
  induction 1 as [|y l Hy Hl IH]; simpl; [intros []|].
  pose proof (sumQ_nonneg l Hl) as Hs.
  intros [-> | Hin]; [lra | specialize (IH Hin); lra].
Qed.

(** Among at most four positive numbers one is at least a quarter of their
    sum. *)
Lemma quarter_of_sum (l : list Q) :
  Forall (fun y => 0 < y) l -> l <> [] -> (length l <= 4)%nat ->
  exists x, In x l /\ sumQ l * (1 # 4) <= x.
Proof.
  intros Hpos Hne Hlen.
  destruct l as [|a [|b [|c [|d [|e l]]]]]; simpl in Hlen; try lia; try congruence;
    repeat match goal with
      | H : Forall _ (_ :: _) |- _ => apply Forall_cons in H as [? H]
      end; cbn [sumQ fold_right].
  - exists a. split; [left; reflexivity | lra].
  - destruct (Qlt_le_dec a ((a + (b + 0)) * (1 # 4)));
      [exists b | exists a]; simpl; split; auto; lra.
  - destruct (Qlt_le_dec a ((a + (b + (c + 0))) * (1 # 4)));
      [|exists a; simpl; split; auto].
    destruct (Qlt_le_dec b ((a + (b + (c + 0))) * (1 # 4)));
      [exists c | exists b]; simpl; split; auto; lra.
  - destruct (Qlt_le_dec a ((a + (b + (c + (d + 0)))) * (1 # 4)));
      [|exists a; simpl; split; auto].
    destruct (Qlt_le_dec b ((a + (b + (c + (d + 0)))) * (1 # 4)));
      [|exists b; simpl; split; auto].
    destruct (Qlt_le_dec c ((a + (b + (c + (d + 0)))) * (1 # 4)));
      [exists d | exists c]; simpl; split; auto; lra.
Qed.

Section TickExtras.
Variable BUILDING_NAME_TO_RULES : gmap string AiBuildingRules.
Variable DEFAULT_BUILDING_PRIORITY : Q.
Variable getDefaultPlacementLocation :
  GameApi -> PlayerData -> option Vector2 -> TechnoRules ->
  option bool -> option Q -> option Location.
Variables (game : GameApi) (productionApi : ProductionApi)
          (playerData : PlayerData) (threatCache : option GlobalThreat).

#[local] Abbreviation score o :=
  (getPriorityForBuildingOption BUILDING_NAME_TO_RULES DEFAULT_BUILDING_PRIORITY
     o game playerData threatCache).
#[local] Abbreviation theCalls :=
  (stepCalls BUILDING_NAME_TO_RULES DEFAULT_BUILDING_PRIORITY
     game productionApi playerData threatCache).
#[local] Abbreviation theWinnerOf :=
  (winnerOf BUILDING_NAME_TO_RULES DEFAULT_BUILDING_PRIORITY
     game productionApi playerData threatCache).
#[local] Abbreviation theWinners :=
  (winners BUILDING_NAME_TO_RULES DEFAULT_BUILDING_PRIORITY
     game productionApi playerData threatCache).
#[local] Abbreviation theStep :=
  (runStep BUILDING_NAME_TO_RULES DEFAULT_BUILDING_PRIORITY getDefaultPlacementLocation
     game productionApi playerData threatCache).
#[local] Abbreviation theTick :=
  (onAiUpdate BUILDING_NAME_TO_RULES DEFAULT_BUILDING_PRIORITY getDefaultPlacementLocation
     game productionApi playerData threatCache).
#[local] Abbreviation totalWeight :=
  (totalWeightAcrossQueues BUILDING_NAME_TO_RULES DEFAULT_BUILDING_PRIORITY
     game productionApi playerData threatCache).
#[local] Abbreviation totalCost :=
  (totalCostAcrossQueues BUILDING_NAME_TO_RULES DEFAULT_BUILDING_PRIORITY
     game productionApi playerData threatCache).
#[local] Abbreviation step queueType decision :=
  (updateBuildQueue BUILDING_NAME_TO_RULES DEFAULT_BUILDING_PRIORITY
     getDefaultPlacementLocation game productionApi playerData threatCache
     queueType decision totalWeight totalCost).
#[local] Abbreviation guard queueType decision e :=
  (commandGuard BUILDING_NAME_TO_RULES DEFAULT_BUILDING_PRIORITY
     getDefaultPlacementLocation game productionApi playerData threatCache
     queueType decision totalWeight totalCost e).
#[local] Abbreviation queueDataOf queueType := (getQueueData productionApi queueType).

(** The step calls of a tick are the queues with a winner, each with its
    winner and the two totals. *)
Lemma stepCalls_spec (c : StepCall) :
  In c theCalls <->
  exists q w, theWinnerOf q = Some w /\
    c = {| call_queue := q; call_decision := Some w;
           call_totalWeight := totalWeight; call_totalCost := totalCost |}.
Proof.
  unfold stepCalls. rewrite in_map_iff. rewrite decisions_unfold. split.
  - intros (d & <- & Hd). apply list_elem_of_In, list_elem_of_filter in Hd as [Hsome Hd].
    apply list_elem_of_In, in_map_iff in Hd as (q & <- & _).
    cbn [decision] in Hsome. destruct Hsome as [w Hw].
    exists q, w. split; [exact Hw|]. cbn [queue decision]. rewrite Hw. reflexivity.
  - intros (q & w & Hw & ->).
    exists {| queue := q; decision := Some w |}. split; [reflexivity|].
    apply list_elem_of_In, list_elem_of_filter. split; [eexists; reflexivity|].
    apply list_elem_of_In, in_map_iff. exists q. rewrite Hw.
    split; [reflexivity | apply all_queues].
Qed.

(** The events of a tick are the events of the steps of the queues that have
    a winner. *)
Lemma tick_events (e : Event) :
  In e theTick <-> exists q w, theWinnerOf q = Some w /\ In e (step q (Some w)).
Proof.
  rewrite onAiUpdate_runs_calls, in_concat. split.
  - intros (trace & Htrace & He). apply in_map_iff in Htrace as (c & <- & Hc).
    apply stepCalls_spec in Hc as (q & w & Hw & ->). exists q, w. split; assumption.
  - intros (q & w & Hw & He).
    exists (step q (Some w)). split; [|exact He].
    apply in_map_iff.
    exists {| call_queue := q; call_decision := Some w;
              call_totalWeight := totalWeight; call_totalCost := totalCost |}.
    split; [reflexivity|]. apply stepCalls_spec. exists q, w. split; [exact Hw | reflexivity].
Qed.

Lemma winner_positive q w : theWinnerOf q = Some w -> 0 < priority w.
Proof.
  unfold winnerOf. rewrite best_lastMax.
  pose proof (lastMax_winner BUILDING_NAME_TO_RULES DEFAULT_BUILDING_PRIORITY game
                threatCache playerData (getAvailableObjects productionApi q)) as H.
  destruct (lastMax _) as [w'|]; [|discriminate].
  intros [= <-]. apply H.
Qed.

Lemma winners_spec w : In w theWinners <-> exists q, theWinnerOf q = Some w.
Proof.
  unfold winners. rewrite <- list_elem_of_In, list_elem_of_omap. split.
  - intros (q & _ & Hq). exists q. exact Hq.
  - intros (q & Hq). exists q. split; [apply list_elem_of_In, all_queues | exact Hq].
Qed.

Lemma winners_positive : Forall (fun x => 0 < x) (map priority theWinners).
Proof.
  apply List.Forall_forall. intros x Hx. apply in_map_iff in Hx as (w & <- & Hw).
  apply winners_spec in Hw as (q & Hq). exact (winner_positive q w Hq).
Qed.

(** X6. Whatever a tick issues is licensed by the inputs of the step of some
    queue that has a winner: it enqueues only on an [Idle] queue (the winner,
    once), places only on a [Ready] structure or armory queue (the front item,
    where the placement search says), cancels and pauses only on an [Active]
    queue, under the 2x and the quarter rule, and resumes only a queue that
    is [OnHold]. *)
Theorem onAiUpdate_commands_guarded (e : Event) :
  In e theTick ->
  exists q w, theWinnerOf q = Some w /\ guard q (Some w) e.
Proof.
  intros He. apply tick_events in He as (q & w & Hw & He).
  exists q, w. split; [exact Hw|].
  apply step_guarded. exact He.
Qed.

(** X7. A tick enqueues a unit for a queue exactly when that queue is [Idle]
    and the selector has a winner for it; what is enqueued is that winner,
    once. *)
Theorem onAiUpdate_enqueue_iff (q : QueueType) (name : string) (ty : ObjectType) (n : Z) :
  In (QueueForProduction q name ty n) theTick <->
  qd_status (queueDataOf q) = Idle /\ n = 1%Z /\
  exists w, theWinnerOf q = Some w /\ name = tr_name (unit w) /\ ty = tr_type (unit w).
Proof.
  rewrite tick_events. split.
  - intros (q' & w & Hw & He). apply step_guarded in He.
    destruct He as (Hst & -> & -> & d & [= <-] & -> & ->).
    split; [exact Hst|]. split; [reflexivity|]. exists w. repeat split. exact Hw.
  - intros (Hst & -> & w & Hw & -> & ->). exists q, w. split; [exact Hw|].
    rewrite step_idle by exact Hst. right. left. reflexivity.
Qed.

(** X8. A tick resumes a queue exactly when the queue is [OnHold], the
    selector has a winner for it, and either the credits cover the total
    cost or the winner's score is at least a quarter of the total weight.  A
    queue on hold for which nothing scores above 0 is not resumed. *)
Theorem onAiUpdate_resume_iff (target : QueueType) :
  In (ResumeProduction target) theTick <->
  exists q w,
    theWinnerOf q = Some w /\ qd_status (queueDataOf q) = OnHold /\
    target = qd_type (queueDataOf q) /\
    (totalCost <= pd_credits playerData \/ totalWeight * (1 # 4) <= priority w).
Proof.
  rewrite tick_events. split.
  - intros (q & w & Hw & He). apply step_guarded in He.
    destruct He as (Hst & -> & Hor). exists q, w.
    split; [exact Hw|]. split; [exact Hst|]. split; [reflexivity|].
    destruct Hor as [Hle | (d & [= <-] & Hd)]; [left | right]; assumption.
  - intros (q & w & Hw & Hst & -> & Hor). exists q, w. split; [exact Hw|].
    rewrite step_on_hold by exact Hst.
    destruct (Qgeb (pd_credits playerData) totalCost) eqn:E1; [right; left; reflexivity|].
    qprop. destruct Hor as [Hle | Hd]; [lra|].
    apply Qgeb_ge in Hd. rewrite Hd. right. left. reflexivity.
Qed.

(** X9. When no option of any queue scores above 0 (in particular when
    nothing is on offer) the tick does nothing: no step is run, the trace is
    empty and both totals are 0, whatever the status of the queues. *)
Theorem onAiUpdate_without_positive_option :
  (forall q, Forall (fun o => score o <= 0) (getAvailableObjects productionApi q)) ->
  stepCalls BUILDING_NAME_TO_RULES DEFAULT_BUILDING_PRIORITY
    game productionApi playerData threatCache = [] /\
  onAiUpdate BUILDING_NAME_TO_RULES DEFAULT_BUILDING_PRIORITY getDefaultPlacementLocation
    game productionApi playerData threatCache = [] /\
  totalWeight = 0 /\ totalCost = 0.
Proof.
  intros Hall.
  assert (Hnone : forall q, theWinnerOf q = None).
  { intros q. unfold winnerOf. rewrite best_lastMax.
    pose proof (lastMax_winner BUILDING_NAME_TO_RULES DEFAULT_BUILDING_PRIORITY game
                  threatCache playerData (getAvailableObjects productionApi q)) as H.
    destruct (lastMax _) as [w|]; [|reflexivity]. exfalso.
    destruct H as (Hw & Hsc & before & after & Heq & _ & _).
    specialize (Hall q). rewrite Heq in Hall.
    apply Forall_app in Hall as [_ Hall]. apply Forall_inv in Hall.
    rewrite Hsc in Hw. cbn beta in Hall. lra. }
  assert (Hdec : decisions BUILDING_NAME_TO_RULES DEFAULT_BUILDING_PRIORITY
                   game productionApi playerData threatCache = []).
  { rewrite decisions_unfold. unfold queues. cbn [map].
    rewrite !Hnone. reflexivity. }
  assert (Hcalls : theCalls = []) by (unfold stepCalls; rewrite Hdec; reflexivity).
  split; [exact Hcalls|]. split.
  - rewrite onAiUpdate_runs_calls, Hcalls. reflexivity.
  - unfold totalWeightAcrossQueues, totalCostAcrossQueues. rewrite Hdec.
    split; reflexivity.
Qed.

Lemma commands_app (a b : list Event) : commands (a ++ b) = commands a ++ commands b.
Proof. apply List.filter_app. Qed.

Lemma commands_of_steps (calls : list StepCall) :
  (length (commands (concat (map theStep calls))) <= length calls)%nat.
Proof.
  induction calls as [|c calls IH]; [apply le_n|].
  cbn [map concat length]. rewrite commands_app, length_app.
  pose proof (step_at_most_one_command BUILDING_NAME_TO_RULES DEFAULT_BUILDING_PRIORITY
                getDefaultPlacementLocation game productionApi playerData threatCache
                (call_queue c) (call_decision c) (call_totalWeight c) (call_totalCost c))
    as Hone.
  unfold runStep at 1. lia.
Qed.

Lemma winners_at_most_six : (length theWinners <= 6)%nat.
Proof.
  unfold winners, queues. cbn [omap list_omap].
  repeat match goal with
    | |- context [match ?x with _ => _ end] => destruct x
    end; cbn [length]; lia.
Qed.

(** X10. A tick issues at most one command per queue that has a winner, hence
    at most six commands. *)
Theorem onAiUpdate_command_count :
  (length (commands theTick) <= length theWinners)%nat /\
  (length theWinners <= 6)%nat.
Proof.
  split; [|apply winners_at_most_six].
  rewrite onAiUpdate_runs_calls.
  pose proof (commands_of_steps theCalls) as H.
  assert (Hlen : length theCalls = length theWinners).
  { rewrite <- (length_map call_decision), stepCalls_decisions. apply length_map. }
  lia.
Qed.

(** X11. Every step of a tick is run with a winner whose score is positive
    and at most the total weight it is handed; the total weight is positive
    as soon as a step is run. *)
Theorem stepCalls_weights :
  Forall (fun c =>
            exists w, call_decision c = Some w /\
                      0 < priority w /\ priority w <= call_totalWeight c /\
                      0 < call_totalWeight c)
         (stepCalls BUILDING_NAME_TO_RULES DEFAULT_BUILDING_PRIORITY
            game productionApi playerData threatCache).
Proof.
  apply List.Forall_forall. intros c Hc.
  apply stepCalls_spec in Hc as (q & w & Hw & ->). exists w.
  cbn [call_decision call_totalWeight]. split; [reflexivity|].
  pose proof (winner_positive q w Hw) as Hpos.
  assert (Hle : priority w <= totalWeight).
  { rewrite totalWeight_sum. apply sumQ_bounds_member; [apply winners_positive|].
    apply in_map, winners_spec. exists q. exact Hw. }
  split; [exact Hpos|]. split; [exact Hle | lra].
Qed.

(** X12. When at most four queues have a winner, one of them has a score of
    at least a quarter of the total weight; the tick does not pause that
    queue, and resumes it if it is [OnHold], whatever the credits. *)
Theorem onAiUpdate_spares_a_queue :
  theWinners <> [] -> (length theWinners <= 4)%nat ->
  exists q w,
    theWinnerOf q = Some w /\ totalWeight * (1 # 4) <= priority w /\
    existsb isPause (step q (Some w)) = false /\
    (qd_status (queueDataOf q) = OnHold ->
     In (ResumeProduction (qd_type (queueDataOf q))) theTick).
Proof.
  intros Hne Hlen.
  destruct (quarter_of_sum (map priority theWinners) winners_positive) as (x & Hx & Hq).
  { destruct theWinners; [congruence | discriminate]. }
  { rewrite length_map. exact Hlen. }
  apply in_map_iff in Hx as (w & <- & Hw). apply winners_spec in Hw as (q & Hw).
  rewrite <- totalWeight_sum in Hq.
  exists q, w. split; [exact Hw|]. split; [exact Hq|]. split.
  - destruct (existsb isPause (step q (Some w))) eqn:E; [|reflexivity]. exfalso.
    apply existsb_exists in E as (e & He & Hp). apply step_guarded in He.
    destruct e; try discriminate Hp.
    destruct He as (_ & _ & d & item & rest & [= <-] & _ & _ & _ & Hlt). lra.
  - intros Hst. apply tick_events. exists q, w. split; [exact Hw|].
    rewrite step_on_hold by exact Hst.
    destruct (Qgeb (pd_credits playerData) totalCost); [right; left; reflexivity|].
    apply Qgeb_ge in Hq. rewrite Hq. right. left. reflexivity.
Qed.

End TickExtras.

(** ** More on the selector *)

Lemma insertSorted_perm x l : Permutation (insertSorted byPriority x l) (x :: l).
Proof.
  induction l as [|y l IH]; simpl; [reflexivity|].
  destruct (Qle_bool _ _); [reflexivity|].
  rewrite IH. apply perm_swap.
Qed.

Lemma sort_perm l : Permutation (sort byPriority l) l.
Proof.
  induction l as [|x l IH]; simpl; [reflexivity|].
  rewrite insertSorted_perm. apply perm_skip, IH.
Qed.

Lemma pop_map {A B} (f : A -> B) (l : list A) : pop (map f l) = f <$> pop l.
Proof.
  induction l as [|x [|y l] IH]; [reflexivity | reflexivity |].
  change (pop (map f (x :: y :: l))) with (pop (map f (y :: l))).
  rewrite IH. reflexivity.
Qed.

Lemma sorted_entries l :
  StronglySorted lePriority l ->
  StronglySorted (fun a b : string * Q => snd a <= snd b) (map entryOf l).
Proof.
  induction 1 as [|x l Hs IH Hall]; simpl; constructor; [exact IH|].
  apply Forall_map. eapply Forall_impl; [exact Hall|]. intros y Hy. exact Hy.
Qed.

Section SelectorExtras.
Variable BUILDING_NAME_TO_RULES : gmap string AiBuildingRules.
Variable DEFAULT_BUILDING_PRIORITY : Q.
Variables (game : GameApi) (threatCache : option GlobalThreat) (playerData : PlayerData).

#[local] Abbreviation score o :=
  (getPriorityForBuildingOption BUILDING_NAME_TO_RULES DEFAULT_BUILDING_PRIORITY
     o game playerData threatCache).
#[local] Abbreviation scored options :=
  (positivelyScored BUILDING_NAME_TO_RULES DEFAULT_BUILDING_PRIORITY
     game playerData threatCache options).
#[local] Abbreviation select options debug :=
  (getBestOptionForBuilding BUILDING_NAME_TO_RULES DEFAULT_BUILDING_PRIORITY
     game options threatCache playerData debug).

Lemma scored_entries options :
  map entryOf (scored options)
  = map (fun o => (tr_name o, score o)) (List.filter (fun o => Qgtb (score o) 0) options).
Proof.
  induction options as [|o rest IH]; [reflexivity|]. simpl.
  destruct (Qgtb (score o) 0); simpl; rewrite IH; reflexivity.
Qed.

Lemma select_unfold options debug :
  select options debug =
  (pop (sort byPriority (scored options)),
   if bool_decide (0 < length (sort byPriority (scored options)))%nat && debug then
     [Log (MsgBuildPriority (map entryOf (sort byPriority (scored options))))]
   else []).
Proof.
  unfold getBestOptionForBuilding. rewrite fold_pushScored. reflexivity.
Qed.

(** X13. The debug flag changes nothing but the log.  With the flag set and a
    winner present, the selector logs one line; its entries are the options
    that score above 0, each with its name and score, in ascending order of
    score, and the last entry is the winner.  Without a winner, or without
    the flag, it logs nothing. *)
Theorem getBestOptionForBuilding_debug_log (options : list TechnoRules) :
  fst (select options true) = fst (select options false) /\
  snd (select options false) = [] /\
  match fst (select options true) with
  | None => snd (select options true) = []
  | Some w =>
      exists entries,
        snd (select options true) = [Log (MsgBuildPriority entries)] /\
        Permutation entries
          (map (fun o => (tr_name o, score o))
               (List.filter (fun o => Qgtb (score o) 0) options)) /\
        StronglySorted (fun a b : string * Q => snd a <= snd b) entries /\
        pop entries = Some (entryOf w)
  end.
Proof.
  rewrite !select_unfold. cbn [fst snd]. rewrite andb_false_r.
  split; [reflexivity|]. split; [reflexivity|].
  destruct (pop (sort byPriority (scored options))) as [w|] eqn:Hpop.
  - exists (map entryOf (sort byPriority (scored options))).
    destruct (sort byPriority (scored options)) as [|x l] eqn:Hsort; [discriminate Hpop|].
    split; [reflexivity|]. rewrite <- Hsort. split; [|split].
    + rewrite <- scored_entries. apply Permutation_map, sort_perm.
    + apply sorted_entries, sort_sorted.
    + rewrite pop_map, Hsort, Hpop. reflexivity.
  - apply pop_None in Hpop. rewrite Hpop. reflexivity.
Qed.

(** X14. The selector never returns an option without a registered strategy
    of which the player owns [DEFAULT_BUILDING_PRIORITY] units or more. *)
Theorem getBestOptionForBuilding_fallback_cap (options : list TechnoRules) (debug : bool)
    (w : TechnoRulesWithPriority) :
  fst (select options debug) = Some w ->
  BUILDING_NAME_TO_RULES !! tr_name (unit w) = None ->
  ofNat (ownedCount game playerData (unit w)) < DEFAULT_BUILDING_PRIORITY.
Proof.
  rewrite best_lastMax. intros Hbest Hmiss.
  pose proof (lastMax_winner BUILDING_NAME_TO_RULES DEFAULT_BUILDING_PRIORITY game
                threatCache playerData options) as H.
  rewrite Hbest in H. destruct H as (Hpos & Hsc & _).
  rewrite Hsc in Hpos. unfold getPriorityForBuildingOption in Hpos.
  rewrite Hmiss in Hpos. fold (ownedCount game playerData (unit w)) in Hpos. lra.
Qed.

End SelectorExtras.

(** ** More on the defensive-structure strategy *)

Section StrategyExtras.
Variable numBuildingsOwnedOfType : GameApi -> PlayerData -> TechnoRules -> nat.
Variables basePriority baseAmount groundStrength : Q.
Variables (playerData : PlayerData) (technoRules : TechnoRules).

#[local] Abbreviation scoreIn game threatCache :=
  (AntiGround_getPriority numBuildingsOwnedOfType basePriority baseAmount groundStrength
     game playerData technoRules threatCache).
#[local] Abbreviation ownDefence threat :=
  (totalAvailableAntiGroundFirepower threat + totalDefensivePower threat + groundStrength).


(** X16. Under a threat snapshot, with a non-negative base priority, the
    score does not decrease when the enemy's offensive strength grows and the
    own defence stays the same. *)
Theorem AntiGround_threat_score_monotone (game : GameApi) (weaker stronger : GlobalThreat) :
  0 <= basePriority ->
  0 <= totalOffensiveLandThreat weaker ->
  totalOffensiveLandThreat weaker <= totalOffensiveLandThreat stronger ->
  totalAvailableAntiGroundFirepower weaker = totalAvailableAntiGroundFirepower stronger ->
  totalDefensivePower weaker = totalDefensivePower stronger ->
  scoreIn game (Some weaker) <= scoreIn game (Some stronger).
Proof.
  intros Hb H0 Hle Hf Hp. unfold AntiGround_getPriority. rewrite <- Hf, <- Hp.
  pose proof (Qinv_lt_0_compat _ (Qmax_one_pos (ownDefence weaker))) as Hinv.
  destruct (Qgtb (totalOffensiveLandThreat weaker) _) eqn:E1;
    destruct (Qgtb (totalOffensiveLandThreat stronger) _) eqn:E2; qprop.
  - unfold Qdiv. rewrite !(Qmult_comm basePriority).
    apply Qmult_le_compat_r; [|exact Hb].
    apply Qmult_le_compat_r; [exact Hle | apply Qlt_le_weak, Hinv].
  - lra.
  - apply Qmult_le_0_compat; [exact Hb|]. unfold Qdiv.
    apply Qmult_le_0_compat; [lra | apply Qlt_le_weak, Hinv].
  - apply Qle_refl.
Qed.

(** X17. Without a threat snapshot, for positive base priority, target count,
    strength and cost: the score strictly decreases as the owned count grows,
    it is [basePriority * strength / cost * 1000] with nothing owned, and it
    is 0 exactly when the owned count equals the target count. *)
Theorem AntiGround_no_threat_tapers (game game' : GameApi) :
  0 < basePriority -> 0 < baseAmount -> 0 < groundStrength -> 0 < tr_cost technoRules ->
  ((numBuildingsOwnedOfType game playerData technoRules
    < numBuildingsOwnedOfType game' playerData technoRules)%nat ->
   scoreIn game' None < scoreIn game None) /\
  (numBuildingsOwnedOfType game playerData technoRules = 0%nat ->
   scoreIn game None == basePriority * (groundStrength / tr_cost technoRules * 1000)) /\
  (scoreIn game None == 0 <->
   ofNat (numBuildingsOwnedOfType game playerData technoRules) == baseAmount).
Proof.
  intros Hb Ha Hg Hc. unfold AntiGround_getPriority.
  pose proof (strengthPerCost_pos groundStrength technoRules Hg Hc) as Hy.
  set (y := groundStrength / tr_cost technoRules * 1000) in *. clearbody y.
  set (n := ofNat (numBuildingsOwnedOfType game playerData technoRules)).
  set (n' := ofNat (numBuildingsOwnedOfType game' playerData technoRules)).
  assert (Hby : 0 < basePriority * y) by (apply Qmult_lt_0_compat; assumption).
  assert (Hshape : forall m, basePriority * (1 - m / baseAmount) * y
                             == (basePriority * y) * ((baseAmount - m) / baseAmount)).
  { intros m. field. lra. }
  split; [|split].
  - intros Hlt. apply ofNat_lt in Hlt. fold n n' in Hlt.
    rewrite !Hshape. apply Qmult_lt_l; [exact Hby|].
    unfold Qdiv. apply Qmult_lt_compat_r; [apply Qinv_lt_0_compat, Ha | lra].
  - intros Hzero. subst n. rewrite Hzero. change (ofNat 0) with 0. field. lra.
  - rewrite Hshape. split.
    + intros Hz.
      destruct (Q_dec n baseAmount) as [[Hlt | Hgt] | Heq]; [| |exact Heq]; exfalso.
      * assert (0 < (baseAmount - n) / baseAmount)
          by (apply Qlt_shift_div_l; [exact Ha | lra]).
        assert (0 < basePriority * y * ((baseAmount - n) / baseAmount))
          by (apply Qmult_lt_0_compat; assumption).
        lra.
      * assert (0 < (n - baseAmount) / baseAmount)
          by (apply Qlt_shift_div_l; [exact Ha | lra]).
        assert (0 < basePriority * y * ((n - baseAmount) / baseAmount))
          by (apply Qmult_lt_0_compat; assumption).
        assert (Hneg : basePriority * y * ((baseAmount - n) / baseAmount)
                       == - (basePriority * y * ((n - baseAmount) / baseAmount)))
          by (field; lra).
        lra.
    + intros Heq. rewrite Heq. field. lra.
Qed.

End StrategyExtras.

Lemma AntiGround_no_threat_nonpos
    (numBuildingsOwnedOfType : GameApi -> PlayerData -> TechnoRules -> nat)
    (basePriority baseAmount groundStrength : Q)
    (game : GameApi) (playerData : PlayerData) (technoRules : TechnoRules) :
  0 <= basePriority -> 0 < baseAmount -> 0 <= groundStrength -> 0 < tr_cost technoRules ->
  baseAmount <= ofNat (numBuildingsOwnedOfType game playerData technoRules) ->
  AntiGround_getPriority numBuildingsOwnedOfType basePriority baseAmount groundStrength
    game playerData technoRules None <= 0.
Proof.
  intros Hb Ha Hg Hc Hn. unfold AntiGround_getPriority.
  pose proof (strengthPerCost_nonneg groundStrength technoRules Hg Hc) as Hy.
  set (y := groundStrength / tr_cost technoRules * 1000) in *. clearbody y.
  set (n := ofNat (numBuildingsOwnedOfType game playerData technoRules)) in *.
  assert (Hx : 0 <= (n - baseAmount) / baseAmount)
    by (apply Qle_shift_div_l; [exact Ha | lra]).
  assert (Hprod : 0 <= basePriority * ((n - baseAmount) / baseAmount) * y)
    by (apply Qmult_le_0_compat; [apply Qmult_le_0_compat|]; assumption).
  assert (Heq : basePriority * (1 - n / baseAmount) * y
                == - (basePriority * ((n - baseAmount) / baseAmount) * y))
    by (field; lra).
  rewrite Heq. lra.
Qed.

(** X18. When the selector returns an item whose registered strategy is the
    defensive-structure strategy: under a threat snapshot the enemy's
    offensive strength exceeds 1.1 times the own defence; without a snapshot
    (non-negative base priority and strength, positive target count and
    cost) the player owns fewer than the target count of that item. *)
Theorem defence_selected_only_when_needed
    (BUILDING_NAME_TO_RULES : gmap string AiBuildingRules)
    (DEFAULT_BUILDING_PRIORITY : Q)
    (numBuildingsOwnedOfType : GameApi -> PlayerData -> TechnoRules -> nat)
    (getPointTowardsOtherPoint : GameApi -> Vector2 -> Vector2 -> Q -> Q -> Q -> Vector2)
    (getDefaultPlacementLocation :
       GameApi -> PlayerData -> option Vector2 -> TechnoRules ->
       option bool -> option Q -> option Location)
    (basePriority baseAmount groundStrength : Q)
    (game : GameApi) (playerData : PlayerData) (threatCache : option GlobalThreat)
    (options : list TechnoRules) (debug : bool) (w : TechnoRulesWithPriority) :
  fst (getBestOptionForBuilding BUILDING_NAME_TO_RULES DEFAULT_BUILDING_PRIORITY
         game options threatCache playerData debug) = Some w ->
  BUILDING_NAME_TO_RULES !! tr_name (unit w)
  = Some (AntiGroundStaticDefence numBuildingsOwnedOfType getPointTowardsOtherPoint
            getDefaultPlacementLocation basePriority baseAmount groundStrength) ->
  match threatCache with
  | Some threat =>
      (totalAvailableAntiGroundFirepower threat + totalDefensivePower threat
       + groundStrength) * (11 # 10) < totalOffensiveLandThreat threat
  | None =>
      0 <= basePriority -> 0 < baseAmount -> 0 <= groundStrength ->
      0 < tr_cost (unit w) ->
      ofNat (numBuildingsOwnedOfType game playerData (unit w)) < baseAmount
  end.
Proof.
  rewrite best_lastMax. intros Hbest Hreg.
  pose proof (lastMax_winner BUILDING_NAME_TO_RULES DEFAULT_BUILDING_PRIORITY game
                threatCache playerData options) as H.
  rewrite Hbest in H. destruct H as (Hpos & Hsc & _).
  rewrite Hsc in Hpos. unfold getPriorityForBuildingOption in Hpos.
  rewrite Hreg in Hpos. cbn [getPriority AntiGroundStaticDefence] in Hpos.
  destruct threatCache as [threat|].
  - apply Qnot_le_lt. intros Hle.
    pose proof (AntiGround_threat_below numBuildingsOwnedOfType basePriority baseAmount
                  groundStrength game playerData (unit w) threat Hle) as Hz.
    rewrite Hz in Hpos. lra.
  - intros Hb Ha Hg Hc. apply Qnot_le_lt. intros Hle.
    pose proof (AntiGround_no_threat_nonpos numBuildingsOwnedOfType basePriority
                  baseAmount groundStrength game playerData (unit w) Hb Ha Hg Hc Hle).
    lra.
Qed.

(** ** The placement hint of the defensive-structure strategy *)

Section PlacementExtras.
Variable getPointTowardsOtherPoint :
  GameApi -> Vector2 -> Vector2 -> Q -> Q -> Q -> Vector2.
Variable getDefaultPlacementLocation :
  GameApi -> PlayerData -> option Vector2 -> TechnoRules ->
  option bool -> option Q -> option Location.
Variables (game : GameApi) (playerData : PlayerData).

#[local] Abbreviation candidates :=
  (enemyFacingLocationCandidates getPointTowardsOtherPoint game playerData).
#[local] Abbreviation pointFacing enemy :=
  (getPointTowardsOtherPoint game (pd_startLocation playerData)
     (pd_startLocation (getPlayerData game enemy)) 4 16 (3 # 2)).

Lemma candidates_fold (names : list string) (acc : list Vector2) :
  fold_left
    (fun acc playerName =>
       if bool_decide (playerName = pd_name playerData) then acc
       else acc ++ [pointFacing playerName])
    names acc
  = acc ++ map (fun enemy => pointFacing enemy)
             (List.filter (fun n => negb (bool_decide (n = pd_name playerData))) names).
Proof.
  revert acc. induction names as [|n names IH]; intros acc; simpl.
  - symmetry. apply app_nil_r.
  - rewrite IH. destruct (bool_decide (n = pd_name playerData)); simpl; [reflexivity|].
    rewrite <- app_assoc. reflexivity.
Qed.

Lemma candidates_are_enemies :
  candidates = map (fun enemy => pointFacing enemy) (otherPlayers game playerData).
Proof. unfold enemyFacingLocationCandidates. apply candidates_fold. Qed.

(** X19. The placement hint asks the default placement search for a site
    around the selected location, on land, with no extra space.  There is one
    candidate location per other player; with no other player nothing is
    selected and the search gets no ideal point; with a random number in
    [0, 1) and at least one other player the selected location is the point
    facing one of the other players. *)
Theorem AntiGround_getPlacementLocation_selection (technoRules : TechnoRules) :
  AntiGround_getPlacementLocation getPointTowardsOtherPoint getDefaultPlacementLocation
    game playerData technoRules
  = getDefaultPlacementLocation game playerData
      (selectedLocation getPointTowardsOtherPoint game playerData) technoRules
      (Some false) (Some 0) /\
  length candidates = length (otherPlayers game playerData) /\
  (otherPlayers game playerData = [] ->
   selectedLocation getPointTowardsOtherPoint game playerData = None) /\
  (0 <= generateRandom game -> generateRandom game < 1 ->
   otherPlayers game playerData <> [] ->
   exists enemy,
     In enemy (otherPlayers game playerData) /\
     selectedLocation getPointTowardsOtherPoint game playerData = Some (pointFacing enemy)).
Proof.
  split; [reflexivity|]. split; [rewrite candidates_are_enemies; apply length_map|].
  unfold selectedLocation. rewrite candidates_are_enemies. split.
  - intros ->. simpl. destruct (_ <? _)%Z; reflexivity.
  - intros H0 H1 Hne. rewrite length_map.
    set (others := otherPlayers game playerData) in *.
    assert (Hn : (0 < length others)%nat) by (destruct others; [congruence | simpl; lia]).
    set (n := length others) in *.
    set (index := Qfloor (generateRandom game * ofNat n)).
    assert (Hpos : 0 < ofNat n) by (apply (ofNat_lt 0 n), Hn).
    assert (Hlo : (0 <= index)%Z).
    { change 0%Z with (Qfloor 0). apply Qfloor_resp_le.
      apply Qmult_le_0_compat; [exact H0 | apply Qlt_le_weak, Hpos]. }
    assert (Hhi : (index < Z.of_nat n)%Z).
    { rewrite Zlt_Qlt. apply Qle_lt_trans with (generateRandom game * ofNat n);
        [apply Qfloor_le|].
      fold (ofNat n). rewrite <- (Qmult_1_l (ofNat n)) at 2.
      apply Qmult_lt_compat_r; assumption. }
    destruct (index <? 0)%Z eqn:E; [apply Z.ltb_lt in E; lia|].
    destruct (lookup_lt_is_Some_2 others (Z.to_nat index)) as [enemy Henemy];
      [fold n; lia|].
    exists enemy. split; [apply list_elem_of_In, (list_elem_of_lookup_2 _ _ _ Henemy)|].
    change (map (fun e => pointFacing e) others)
      with ((fun e => pointFacing e) <$> others).
    rewrite list_lookup_fmap, Henemy. reflexivity.
Qed.

End PlacementExtras.

(** * The further properties on the worked ticks *)

Module SkirmishFacts.
Import Scenario Skirmish.

Lemma onAiUpdate_commands_guarded_witness :
  In (QueueForProduction Vehicles "MTNK" VehicleObject 1)
     (onAiUpdate table 50 placeAtIdeal (world []) production me (Some calmThreat)) /\
  exists q w,
    winnerOf table 50 (world []) production me (Some calmThreat) q = Some w /\
    commandGuard table 50 placeAtIdeal (world []) production me (Some calmThreat)
      q (Some w)
      (totalWeightAcrossQueues table 50 (world []) production me (Some calmThreat))
      (totalCostAcrossQueues table 50 (world []) production me (Some calmThreat))
      (QueueForProduction Vehicles "MTNK" VehicleObject 1).
Proof.
  split; [vm_compute; tauto|].
  apply (onAiUpdate_commands_guarded table 50 placeAtIdeal (world []) production me
           (Some calmThreat)).
  vm_compute. tauto.
Defined.

Lemma updateBuildQueue_no_op_witness :
  qd_status (getQueueData busyProduction Vehicles) = Active /\
  updateBuildQueue table 50 placeAtIdeal (world []) busyProduction me None
    Vehicles None 50 700 = [].
Proof.
  split; [reflexivity|].
  apply (updateBuildQueue_no_op table 50 placeAtIdeal (world []) busyProduction me None
           Vehicles None 50 700).
  right. right. split; [reflexivity | right; reflexivity].
Defined.

Lemma pause_resume_complementary_witness :
  qd_status (getQueueData busyProduction Vehicles) = Active /\
  qd_status (getQueueData heldProduction Vehicles) = OnHold /\
  existsb isPause
    (updateBuildQueue table 50 placeAtIdeal (world []) busyProduction me None
       Vehicles (Some (harvesterAt 50)) 400 1400)
  = negb (existsb isResume
    (updateBuildQueue table 50 placeAtIdeal (world []) heldProduction me None
       Vehicles (Some (harvesterAt 50)) 400 1400)).
Proof.
  split; [reflexivity|]. split; [reflexivity|].
  apply (pause_resume_complementary table 50 placeAtIdeal (world [])
           busyProduction heldProduction me None Vehicles (harvesterAt 50)
           {| qi_rules := harvester; qi_quantity := 1 |} [] 400 1400);
    reflexivity.
Defined.

(** The finished pillbox is not placed while nothing scores above 0. *)
Lemma onAiUpdate_without_positive_option_witness :
  qd_status (getQueueData quietProduction Structures) = Ready /\
  onAiUpdate table 50 placeAtIdeal (world []) quietProduction me (Some calmThreat) = [].
Proof.
  split; [reflexivity|].
  apply (onAiUpdate_without_positive_option table 50 placeAtIdeal (world [])
           quietProduction me (Some calmThreat)).
  intros q. destruct q; repeat constructor. discriminate.
Defined.

Lemma onAiUpdate_spares_a_queue_witness :
  exists q w,
    winnerOf table 50 (world []) production me (Some calmThreat) q = Some w /\
    totalWeightAcrossQueues table 50 (world []) production me (Some calmThreat) * (1 # 4)
      <= priority w /\
    existsb isPause
      (updateBuildQueue table 50 placeAtIdeal (world []) production me (Some calmThreat)
         q (Some w)
         (totalWeightAcrossQueues table 50 (world []) production me (Some calmThreat))
         (totalCostAcrossQueues table 50 (world []) production me (Some calmThreat)))
      = false /\
    (qd_status (getQueueData production q) = OnHold ->
     In (ResumeProduction (qd_type (getQueueData production q)))
        (onAiUpdate table 50 placeAtIdeal (world []) production me (Some calmThreat))).
Proof.
  apply (onAiUpdate_spares_a_queue table 50 placeAtIdeal (world []) production me
           (Some calmThreat)).
  - vm_compute. discriminate.
  - vm_compute. lia.
Defined.

Lemma getBestOptionForBuilding_fallback_cap_witness :
  table !! tr_name harvester = None /\
  ofNat (ownedCount (world (owns "bot" 3 rifleman)) me harvester) < 50.
Proof.
  split; [reflexivity|].
  apply (getBestOptionForBuilding_fallback_cap table 50 (world (owns "bot" 3 rifleman))
           None me [tank; rifleman; refinery; harvester] false (harvesterAt 50));
    [vm_compute|]; reflexivity.
Defined.


Lemma AntiGround_threat_score_monotone_witness :
  totalOffensiveLandThreat mildThreat <= totalOffensiveLandThreat pressingThreat /\
  getPriority pillboxRules (world []) me pillbox (Some mildThreat)
  <= getPriority pillboxRules (world []) me pillbox (Some pressingThreat).
Proof.
  split; [discriminate|].
  apply (AntiGround_threat_score_monotone countOwned 10 2 5 me pillbox (world [])
           mildThreat pressingThreat); reflexivity || discriminate.
Defined.

Lemma AntiGround_no_threat_tapers_witness :
  (countOwned (world []) me pillbox < countOwned (world (owns "bot" 1 pillbox)) me pillbox)%nat /\
  getPriority pillboxRules (world (owns "bot" 1 pillbox)) me pillbox None
  < getPriority pillboxRules (world []) me pillbox None.
Proof.
  split; [vm_compute; lia|].
  apply (AntiGround_no_threat_tapers countOwned 10 2 5 me pillbox (world [])
           (world (owns "bot" 1 pillbox))); try reflexivity.
  vm_compute. lia.
Defined.

Lemma defence_selected_only_when_needed_witness :
  table !! tr_name pillbox = Some pillboxRules /\
  ofNat (countOwned (world (owns "bot" 1 pillbox)) me pillbox) < 2.
Proof.
  split; [reflexivity|].
  eapply (defence_selected_only_when_needed table 50 countOwned pointTowards placeAtIdeal
            10 2 5 (world (owns "bot" 1 pillbox)) me None [tank; pillbox] false
            {| unit := pillbox; priority := _ |});
    first [vm_compute; reflexivity | reflexivity | discriminate].
Defined.

Lemma AntiGround_getPlacementLocation_selection_witness :
  otherPlayers (world []) me = ["enemy"] /\
  selectedLocation pointTowards (world []) me = Some (mkVector2 90 90).
Proof.
  split; [reflexivity|].
  destruct (AntiGround_getPlacementLocation_selection pointTowards placeAtIdeal
              (world []) me pillbox) as (_ & _ & _ & H).
  destruct H as (enemy & Hin & Hsel); [discriminate | reflexivity | discriminate |].
  destruct Hin as [<-|[]]. exact Hsel.
Defined.

End SkirmishFacts.
